(** * Supervised classifiers of spectral/algorithms/classifiers.py

    A shallow embedding of [Classifier], [GaussianClassifier] and
    [MahalanobisDistanceClassifier].

    Conventions of the embedding.
    - Python objects are records; an attribute that may be absent
      ([self.classes] before [train], [cl.stats] before [calc_stats],
      [self.background]) or [None] ([min_samples], the mean of
      [GaussianStats(cov=...)]) is an [option] field, and reading it when it
      is absent raises.
    - A method returns a [result]: [Ok v] or [Raise e] for the Python
      exception that ends the call.  A method that assigns attributes also
      returns the object after the call.
    - Scalars are the binary64 floats of the kernel ([PrimFloat]): every sum,
      difference and product rounds as float64 does, and NaN and the
      infinities are values.  A sum of products ([dot], [einsum]) is taken in
      the order of the index, from [0.0].
    - numpy arrays are lists (vectors), lists of rows (matrices, class maps)
      or a shape with an indexing function (the image).  Subtraction and
      in-place addition broadcast an operand of one entry and raise
      [ValueError] on other unequal shapes, and [dot] raises [ValueError] on
      operands that are not aligned.  Of how an array lies in memory the
      model keeps what [dot] asks of its [out] argument.
    - The status display ([spectral._status]) only observes the run and is
      left out; the arithmetic that decides when it is called is kept. *)

From Stdlib Require Import ZArith List Lia Floats.
From stdpp Require Import base list.
Import ListNotations.

Local Open Scope Z_scope.

(** ** Exceptions and results *)

Inductive exception : Type :=
  | NotImplementedError
  | ZeroDivisionError
  | IndexError
  | AttributeError
  | TypeError
  | ValueError.

Inductive result (A : Type) : Type :=
  | Ok (a : A)
  | Raise (e : exception).
Arguments Ok {A} a.
Arguments Raise {A} e.

Definition result_bind {A B : Type} (m : result A) (k : A -> result B) : result B :=
  match m with
  | Ok a => k a
  | Raise e => Raise e
  end.

Notation "x <- m ;; k" := (result_bind m (fun x => k))
  (at level 100, m at next level, right associativity).

(** [obj.attr] on an attribute that may not have been assigned. *)
Definition getattr {A : Type} (a : option A) : result A :=
  match a with
  | Some v => Ok v
  | None => Raise AttributeError
  end.

(** An operand of arithmetic that may be [None]. *)
Definition operand {A : Type} (a : option A) : result A :=
  match a with
  | Some v => Ok v
  | None => Raise TypeError
  end.

(** [[f(a) for a in l]], stopping at the first exception. *)
Fixpoint for_each {A B : Type} (f : A -> result B) (l : list A) : result (list B) :=
  match l with
  | [] => Ok []
  | a :: l' => b <- f a ;; bs <- for_each f l' ;; Ok (b :: bs)
  end.

(** ** Scalars, vectors and matrices *)

Abbreviation vector := (list float).
Abbreviation matrix := (list (list float)).

(** The literals [0.5], [-0.5], [-100000000000.] and [-1]. *)
Definition half : float := 0.5%float.
Definition minus_half : float := (-0.5)%float.
Definition initial_max_prob : float := (-100000000000)%float.
Definition initial_d2_min : float := (-1)%float.

(** The float64 nearest to a Python integer, as numpy converts the integer
    operand of a product with a float64 array. *)
Definition float_of_int (n : Z) : float :=
  SF2Prim (binary_normalize prec emax n 0 false).

(** [a > b] on floats: false as soon as one of them is NaN. *)
Definition gtb (a b : float) : bool := (b <? a)%float.

(** The sum of the entries in the order of the index, from [0.0]. *)
Definition sum (l : list float) : float := fold_left PrimFloat.add l 0%float.

(** The sum of the products of the entries of two rank-1 arrays of the same
    length. *)
Definition inner (u v : vector) : float := sum (zip_with PrimFloat.mul u v).

(** [x - m] for two rank-1 arrays: entry by entry for equal lengths, an
    operand of one entry is broadcast, other lengths raise. *)
Definition vsub (x m : vector) : result vector :=
  if decide (length x = length m) then Ok (zip_with PrimFloat.sub x m)
  else match x, m with
       | [a], _ => Ok (map (fun b => (a - b)%float) m)
       | _, [b] => Ok (map (fun a => (a - b)%float) x)
       | _, _ => Raise ValueError
       end.

(** [dot(A, v)] for a matrix and a column: the rows of [A] must have as many
    entries as [v]. *)
Definition mat_vec (A : matrix) (v : vector) : result vector :=
  if decide (Forall (fun row => length row = length v) A)
  then Ok (map (fun row => inner row v) A)
  else Raise ValueError.

(** [dot(transpose(u), w)[0, 0]] for two columns: they must have the same
    number of entries. *)
Definition dot (u w : vector) : result float :=
  if decide (length u = length w) then Ok (inner u w) else Raise ValueError.

(** [dot(transpose(delta), dot(C, delta))[0, 0]] for a column [delta]. *)
Definition quadratic_form (C : matrix) (delta : vector) : result float :=
  w <- mat_vec C delta ;;
  dot delta w.

(** Column [j] of a matrix, and [v.dot(A)] for a row [v] of [B] entries
    written to a row of as many: [A] must be [B x B]. *)
Definition column (A : matrix) (j : nat) : vector :=
  map (fun row => nth j row 0%float) A.
Definition vec_mat (v : vector) (A : matrix) : result vector :=
  if decide (length A = length v /\ Forall (fun row => length row = length v) A)
  then Ok (map (fun j => inner v (column A j)) (seq 0 (length v)))
  else Raise ValueError.

(** [np.subtract(image, m, out=delta)] on one row of [image]: [m] has the
    entries of the row or one entry. *)
Definition subtract_out (px m : vector) : result vector :=
  if decide (length m = length px) then Ok (zip_with PrimFloat.sub px m)
  else match m with
       | [b] => Ok (map (fun a => (a - b)%float) px)
       | _ => Raise ValueError
       end.

(** An operand broadcast along an axis of [n] entries. *)
Definition broadcast {A : Type} (n : nat) (l : list A) : result (list A) :=
  if decide (length l = n) then Ok l
  else match l with
       | [a] => Ok (repeat a n)
       | _ => Raise ValueError
       end.

(** [numpy.zeros(m.shape)], [n * m] and [a += b] on matrices. *)
Definition zeros_like (m : matrix) : matrix := map (map (fun _ => 0%float)) m.
Definition mscale (n : float) (m : matrix) : matrix := map (map (PrimFloat.mul n)) m.
Definition iadd (a b : matrix) : result matrix :=
  rows <- broadcast (length a) b ;;
  for_each (fun rr => row <- broadcast (length rr.1) rr.2 ;;
                      Ok (zip_with PrimFloat.add rr.1 row))
           (zip a rows).

(** Entry [m[i, j]]. *)
Definition entry (m : matrix) (i j : nat) : float :=
  nth j (nth i m []) 0%float.

Definition has_shape (r c : nat) (m : matrix) : Prop :=
  length m = r /\ Forall (fun row => length row = c) m.

(** ** The data model *)

(** [GaussianStats]: the statistics of a set of samples.  [inv_cov] and
    [log_det_cov] are the cached values derived from [cov]. *)
Record GaussianStats : Type := {
  mean : option vector;
  cov : matrix;
  inv_cov : matrix;
  log_det_cov : float;
  nsamples : option Z
}.

(** [TrainingClass]: [index] is the class label, [size] the value of
    [cl.size()], [stats] is [None] while [hasattr(cl, 'stats')] is false. *)
Record TrainingClass : Type := {
  index : Z;
  size : Z;
  class_prob : float;
  stats : option GaussianStats
}.

(** [TrainingClassSet]: [td_classes] in iteration order. *)
Record TrainingClassSet : Type := {
  nbands : Z;
  td_classes : list TrainingClass
}.

(** The image, an [M x N x B] array: [image.shape[:2]], [image[i, j]], and
    whether the arrays that [np.empty_like] makes from
    [image.reshape(-1, B)] are C-arrays (the rows one after the other in
    memory): they are for an image in C order, and are not for a view of a
    cube that lies in memory band after band. *)
Record Image : Type := {
  im_rows : nat;
  im_cols : nat;
  pixel : nat -> nat -> vector;
  c_contiguous : bool
}.

Inductive dtype : Type := float64 | int64.

(** A class map: an [M x N] array of class indices.  The entries are kept as
    the integers they are, also under [float64], which holds an integer up
    to [2^53] as it is. *)
Record ClassMap : Type := {
  cm_dtype : dtype;
  cm_shape : nat * nat;
  cm_data : list (list Z)
}.

(** What [train] prints for a class it leaves out:
    ['  Omitting class %3d : only %d samples present' % (index, size)]. *)
Inductive diagnostic : Type :=
  | Omitting (class_index : Z) (samples : Z).

(** ** Collaborators outside this file *)

(** The value of [math.log] on a positive float, [TrainingClass.calc_stats],
    the inverse and the logarithm of the determinant that [GaussianStats]
    derives from a covariance, and the score that the detector [RX] gives one
    pixel against a background. *)
Class Externals : Type := {
  log : float -> float;
  calc_stats : TrainingClass -> GaussianStats;
  inverse : matrix -> matrix;
  log_det : matrix -> float;
  rx_score : GaussianStats -> vector -> float
}.

(** [math.log(p)]: a float that is zero or negative is outside the domain. *)
Definition math_log `{Externals} (p : float) : result float :=
  if (p <=? 0)%float then Raise ValueError else Ok (log p).

Module ImageIterator.

(** Modelled from the spec: the pixel iterator [ImageIterator]
    (spectral/algorithms/algorithms.py is not among the sources) yields every
    pixel exactly once together with its row and column; the pixels come row
    by row. *)
Definition elements (image : Image) : list (nat * nat * vector) :=
  flat_map (fun r => map (fun c => (r, c, pixel image r c)) (seq 0 (im_cols image)))
           (seq 0 (im_rows image)).

(** Modelled from the spec: [get_num_elements] of the pixel iterator is the
    total element count, the number of pixels of the image. *)
Definition get_num_elements (image : Image) : Z :=
  Z.of_nat (im_rows image * im_cols image).

End ImageIterator.

(** [class_map[row, col] = v]; numpy raises [IndexError] out of range. *)
Definition setitem2 (a : list (list Z)) (r c : nat) (v : Z) : result (list (list Z)) :=
  match a !! r with
  | Some row =>
      if decide (c < length row)%nat then Ok (<[r := <[c := v]> row]> a)
      else Raise IndexError
  | None => Raise IndexError
  end.

(** [image.reshape(-1, shape[-1])]: the pixels as the rows of a [P x B] array. *)
Definition reshape_pixels (image : Image) : list vector :=
  flat_map (fun r => map (fun c => pixel image r c) (seq 0 (im_cols image)))
           (seq 0 (im_rows image)).

(** [a.reshape((rows, cols))] of a rank-1 array of [rows * cols] entries. *)
Definition reshape2 {A : Type} (rows cols : nat) (a : list A) : list (list A) :=
  map (fun r => take cols (drop (r * cols) a)) (seq 0 rows).

(** [np.argmax] of a rank-1 array: [ValueError] on an empty array; otherwise
    the scan of numpy, which moves to an entry when the entry is not [<=]
    the maximum so far and stops at a NaN. *)
Fixpoint argmax_from (mp : float) (max_ind i : nat) (l : list float) : nat :=
  if PrimFloat.is_nan mp then max_ind
  else match l with
       | [] => max_ind
       | s :: l' =>
           if negb (s <=? mp)%float then argmax_from s i (S i) l'
           else argmax_from mp max_ind (S i) l'
       end.
Definition argmax (l : list float) : result nat :=
  match l with
  | [] => Raise ValueError
  | s :: l' => Ok (argmax_from s 0 1 l')
  end.

(** [np.argmin] of a rank-1 array, with [>=] in the place of [<=]. *)
Fixpoint argmin_from (mp : float) (min_ind i : nat) (l : list float) : nat :=
  if PrimFloat.is_nan mp then min_ind
  else match l with
       | [] => min_ind
       | s :: l' =>
           if negb (mp <=? s)%float then argmin_from s i (S i) l'
           else argmin_from mp min_ind (S i) l'
       end.
Definition argmin (l : list float) : result nat :=
  match l with
  | [] => Raise ValueError
  | s :: l' => Ok (argmin_from s 0 1 l')
  end.

(** Row [p] of a score array kept as the list of its slices along the last
    axis (one slice per class). *)
Definition scores_row (scores : list (list float)) (p : nat) : list float :=
  map (fun column => nth p column 0%float) scores.

(** [np.argmax(scores, axis=-1)] and [np.argmin(scores, axis=-1)] for [P]
    rows; numpy raises when the last axis is empty. *)
Definition argmax_last_axis (scores : list (list float)) (P : nat) : result (list nat) :=
  match scores with
  | [] => Raise ValueError
  | _ :: _ => for_each (fun p => argmax (scores_row scores p)) (seq 0 P)
  end.
Definition argmin_last_axis (scores : list (list float)) (P : nat) : result (list nat) :=
  match scores with
  | [] => Raise ValueError
  | _ :: _ => for_each (fun p => argmin (scores_row scores p)) (seq 0 P)
  end.

(** [inds[k]]. *)
Definition getitem {A : Type} (a : list A) (k : nat) : result A :=
  match a !! k with
  | Some v => Ok v
  | None => Raise IndexError
  end.

(** ** class Classifier *)

Module Classifier.

(** [classify_spectrum(self, *args, **kwargs)] of the base class. *)
Definition classify_spectrum {Args Kwargs : Type} (args : Args) (kwargs : Kwargs)
  : result Z :=
  Raise NotImplementedError.

(** The body of [for spectrum in it], with [i] the counter before the
    pixel and [inc = N / 100].  [i % inc] raises when [inc] is zero. *)
Fixpoint loop (classify_spectrum : vector -> result Z)
    (it : list (nat * nat * vector)) (inc i : Z) (class_map : list (list Z))
  : result (list (list Z)) :=
  match it with
  | [] => Ok class_map
  | (row, col, spectrum) :: it' =>
      v <- classify_spectrum spectrum ;;
      class_map' <- setitem2 class_map row col v ;;
      let i' := i + 1 in
      if inc =? 0 then Raise ZeroDivisionError
      else loop classify_spectrum it' inc i' class_map'
  end.

(** [classify_image(self, image)]; [classify_spectrum] is the method that
    [self.classify_spectrum] resolves to.  [zeros] makes a float64 array. *)
Definition classify_image (classify_spectrum : vector -> result Z) (image : Image)
  : result ClassMap :=
  let it := ImageIterator.elements image in
  let class_map := repeat (repeat 0 (im_cols image)) (im_rows image) in
  let N := ImageIterator.get_num_elements image in
  let '(i, inc) := (0, N / 100) in
  data <- loop classify_spectrum it inc i class_map ;;
  Ok {| cm_dtype := float64;
        cm_shape := (im_rows image, im_cols image);
        cm_data := data |}.

End Classifier.

(** ** class GaussianClassifier *)

Module GaussianClassifier.

Record t : Type := {
  cache_class_scores : bool;
  min_samples : option Z;
  classes : option (list TrainingClass)
}.

(** [__init__] before the optional call of [train]: [if min_samples:] keeps
    a non-zero number and stores [None] otherwise. *)
Definition init_attributes (min_samples : option Z) : t :=
  {| cache_class_scores := true;
     min_samples := match min_samples with
                    | Some m => if m =? 0 then None else Some m
                    | None => None
                    end;
     classes := None |}.

(** [self.cache_class_scores = b], which overrides the class attribute. *)
Definition set_cache_class_scores (b : bool) (self : t) : t :=
  {| cache_class_scores := b;
     min_samples := min_samples self;
     classes := classes self |}.

(** The first loop of [train]: append the class or print that it is left out. *)
Fixpoint select (min_samples : Z) (training_data : list TrainingClass)
    (classes : list TrainingClass) (printed : list diagnostic)
  : list TrainingClass * list diagnostic :=
  match training_data with
  | [] => (classes, printed)
  | cl :: rest =>
      if size cl >=? min_samples
      then select min_samples rest (classes ++ [cl]) printed
      else select min_samples rest classes (printed ++ [Omitting (index cl) (size cl)])
  end.

Section Methods.
Context `{Externals}.

(** [if not hasattr(cl, 'stats'): cl.calc_stats()]. *)
Definition ensure_stats (cl : TrainingClass) : TrainingClass :=
  match stats cl with
  | Some _ => cl
  | None => {| index := index cl; size := size cl; class_prob := class_prob cl;
               stats := Some (calc_stats cl) |}
  end.

(** [train(self, training_data)]: the object after the call and what was
    printed. *)
Definition train (self : t) (training_data : TrainingClassSet) : t * list diagnostic :=
  let min_samples' :=
    match min_samples self with
    | Some m => if m =? 0 then nbands training_data else m
    | None => nbands training_data
    end in
  let '(classes', printed) := select min_samples' (td_classes training_data) [] [] in
  ({| cache_class_scores := cache_class_scores self;
      min_samples := Some min_samples';
      classes := Some (map ensure_stats classes') |}, printed).

(** [__init__(self, training_data=None, min_samples=None)]. *)
Definition init (training_data : option TrainingClassSet) (min_samples : option Z)
  : t * list diagnostic :=
  let self := init_attributes min_samples in
  match training_data with
  | Some td => train self td
  | None => (self, [])
  end.

(** [prob[0, 0]] in [classify_spectrum]: the subtraction, the logarithm and
    the two products can raise [ValueError]. *)
Definition prob (cl : TrainingClass) (st : GaussianStats) (m x : vector) : result float :=
  delta <- vsub x m ;;
  log_prob <- math_log (class_prob cl) ;;
  q <- quadratic_form (inv_cov st) delta ;;
  Ok (log_prob - half * log_det_cov st - half * q)%float.

(** The loop of [classify_spectrum]. *)
Fixpoint scan (x : vector) (classes : list TrainingClass)
    (first : bool) (max_prob : float) (max_class : Z) : result Z :=
  match classes with
  | [] => Ok max_class
  | cl :: rest =>
      st <- getattr (stats cl) ;;
      m <- operand (mean st) ;;
      p <- prob cl st m x ;;
      if first || gtb p max_prob
      then scan x rest false p (index cl)
      else scan x rest first max_prob max_class
  end.

(** [classify_spectrum(self, x)]. *)
Definition classify_spectrum (self : t) (x : vector) : result Z :=
  cls <- getattr (classes self) ;;
  scan x cls true initial_max_prob (-1).

(** [delta.dot(A, out=Y)] row by row: numpy refuses an [out] that is no
    C-array. *)
Definition dot_out (delta : list vector) (A : matrix) (c_array : bool)
  : result (list vector) :=
  if c_array then for_each (fun d => vec_mat d A) delta else Raise ValueError.

(** One pass of the loop over [enumerate(self.classes)] in [classify_image]:
    column [i] of [scores]. *)
Definition score_column (image : list vector) (c_array : bool) (c : TrainingClass)
  : result (list float) :=
  log_prob <- math_log (class_prob c) ;;
  st <- getattr (stats c) ;;
  let scalar := (log_prob - half * log_det_cov st)%float in
  m <- operand (mean st) ;;
  delta <- for_each (fun px => subtract_out px m) image ;;
  Y <- dot_out delta (inv_cov st) c_array ;;
  let column := zip_with (fun y d => (minus_half * inner y d)%float) Y delta in
  Ok (map (fun s => (s + scalar)%float) column).

(** [classify_image(self, image)]; [scores] is kept as the list of its
    columns. *)
Definition classify_image (self : t) (image : Image) : result ClassMap :=
  if negb (cache_class_scores self)
  then Classifier.classify_image (classify_spectrum self) image
  else
    let shape := (im_rows image, im_cols image) in
    let image' := reshape_pixels image in
    cls <- getattr (classes self) ;;
    scores <- for_each (score_column image' (c_contiguous image)) cls ;;
    let inds := map index cls in
    mins <- argmax_last_axis scores (length image') ;;
    labels <- for_each (getitem inds) mins ;;
    Ok {| cm_dtype := int64;
          cm_shape := shape;
          cm_data := reshape2 (fst shape) (snd shape) labels |}.

End Methods.

End GaussianClassifier.

(** ** The RX detector *)

Module RX.

Section Detector.
Context `{Externals}.

(** Modelled from the spec: the background-dissimilarity detector [RX]
    (spectral/algorithms/detectors.py is not among the sources) returns, for
    a background [GaussianStats] and an image, a per-pixel dissimilarity
    score against that background, as an [M x N] layer kept here row by row
    in one list.  [classify_image] assigns the mean of the background before
    each call; a mean that is [None] is no operand of the score. *)
Definition call (background : GaussianStats) (image : Image) : result (list float) :=
  m <- operand (mean background) ;;
  Ok (map (rx_score background) (reshape_pixels image)).

End Detector.

End RX.

(** ** class MahalanobisDistanceClassifier *)

Module MahalanobisDistanceClassifier.

(** The attributes inherited from [GaussianClassifier] and [background]. *)
Record t : Type := {
  base : GaussianClassifier.t;
  background : option GaussianStats
}.

(** [self.cache_class_scores = b]. *)
Definition set_cache_class_scores (b : bool) (self : t) : t :=
  {| base := GaussianClassifier.set_cache_class_scores b (base self);
     background := background self |}.

Section Methods.
Context `{Externals}.

(** [GaussianStats(cov=covariance)]: the mean and the sample count are not
    set. *)
Definition GaussianStats_of_cov (covariance : matrix) : GaussianStats :=
  {| mean := None;
     cov := covariance;
     inv_cov := inverse covariance;
     log_det_cov := log_det covariance;
     nsamples := None |}.

(** The loop of [train] over [self.classes]. *)
Fixpoint accumulate (classes : list TrainingClass) (covariance : matrix) (nsamples' : Z)
  : result (matrix * Z) :=
  match classes with
  | [] => Ok (covariance, nsamples')
  | cl :: rest =>
      st <- getattr (stats cl) ;;
      n <- operand (nsamples st) ;;
      covariance' <- iadd covariance (mscale (float_of_int n) (cov st)) ;;
      accumulate rest covariance' (nsamples' + n)
  end.

(** What follows [GaussianClassifier.train] in [train]: the new background. *)
Definition pool (classes : option (list TrainingClass)) : result GaussianStats :=
  cls <- getattr classes ;;
  cl0 <- getitem cls 0 ;;
  st0 <- getattr (stats cl0) ;;
  let covariance := zeros_like (cov st0) in
  let nsamples := 0 in
  acc <- accumulate cls covariance nsamples ;;
  Ok (GaussianStats_of_cov (fst acc)).

(** [train(self, trainingData)]: the object after the call, what was
    printed, and how the call ended. *)
Definition train (self : t) (trainingData : TrainingClassSet)
  : t * list diagnostic * result unit :=
  let '(base', printed) := GaussianClassifier.train (base self) trainingData in
  match pool (GaussianClassifier.classes base') with
  | Ok bg => ({| base := base'; background := Some bg |}, printed, Ok tt)
  | Raise e => ({| base := base'; background := background self |}, printed, Raise e)
  end.

(** [__init__], inherited: [self.train] is the method of this class. *)
Definition init (training_data : option TrainingClassSet) (min_samples : option Z)
  : t * list diagnostic * result unit :=
  let self := {| base := GaussianClassifier.init_attributes min_samples;
                 background := None |} in
  match training_data with
  | Some td => train self td
  | None => (self, [], Ok tt)
  end.

(** The loop of [classify_spectrum]: [delta], then [d2] with the inverse
    covariance of [self.background]. *)
Fixpoint scan (background : option GaussianStats) (x : vector)
    (classes : list TrainingClass) (first : bool) (d2_min : float) (max_class : Z)
  : result Z :=
  match classes with
  | [] => Ok max_class
  | cl :: rest =>
      st <- getattr (stats cl) ;;
      m <- operand (mean st) ;;
      delta <- vsub x m ;;
      bg <- getattr background ;;
      d2 <- quadratic_form (inv_cov bg) delta ;;
      if first || (d2 <? d2_min)%float
      then scan background x rest false d2 (index cl)
      else scan background x rest first d2_min max_class
  end.

(** [classify_spectrum(self, x)]. *)
Definition classify_spectrum (self : t) (x : vector) : result Z :=
  cls <- getattr (GaussianClassifier.classes (base self)) ;;
  scan (background self) x cls true initial_d2_min (-1).

(** [self.background.mean = mean]. *)
Definition set_mean (bg : GaussianStats) (m : option vector) : GaussianStats :=
  {| mean := m; cov := cov bg; inv_cov := inv_cov bg;
     log_det_cov := log_det_cov bg; nsamples := nsamples bg |}.

(** The loop over [enumerate(self.classes)] in [classify_image]: the
    background after it and the layers [scores[:, :, i]]. *)
Fixpoint score_layers (classes : list TrainingClass) (image : Image)
    (background : option GaussianStats)
  : option GaussianStats * result (list (list float)) :=
  match classes with
  | [] => (background, Ok [])
  | c :: rest =>
      match getattr (stats c), getattr background with
      | Raise e, _ => (background, Raise e)
      | Ok _, Raise e => (background, Raise e)
      | Ok st, Ok bg =>
          let bg' := set_mean bg (mean st) in
          match RX.call bg' image with
          | Raise e => (Some bg', Raise e)
          | Ok layer =>
              let '(background', layers) := score_layers rest image (Some bg') in
              (background', ls <- layers ;; Ok (layer :: ls))
          end
      end
  end.

(** [classify_image(self, image)]: the object after the call and the
    result. *)
Definition classify_image (self : t) (image : Image) : t * result ClassMap :=
  if negb (GaussianClassifier.cache_class_scores (base self))
  then (self, Classifier.classify_image (classify_spectrum self) image)
  else
    match getattr (GaussianClassifier.classes (base self)) with
    | Raise e => (self, Raise e)
    | Ok cls =>
        let '(background', scores) := score_layers cls image (background self) in
        ({| base := base self; background := background' |},
         scores <- scores ;;
         let inds := map index cls in
         mins <- argmin_last_axis scores (im_rows image * im_cols image) ;;
         labels <- for_each (getitem inds) mins ;;
         Ok {| cm_dtype := int64;
               cm_shape := (im_rows image, im_cols image);
               cm_data := reshape2 (im_rows image) (im_cols image) labels |})
    end.

End Methods.

End MahalanobisDistanceClassifier.

(** ** Notions of the specification *)

(** A class is kept when it has at least [min_samples] samples. *)
Definition retained (min_samples : Z) (cl : TrainingClass) : Prop := min_samples <= size cl.
#[global] Instance retained_dec m cl : Decision (retained m cl).
Proof. unfold retained. apply _. Defined.

(** The threshold that [train] compares with: [min_samples] when it was
    supplied, the number of bands otherwise. *)
Definition threshold (self : GaussianClassifier.t) (td : TrainingClassSet) : Z :=
  match GaussianClassifier.min_samples self with
  | Some m => if m =? 0 then nbands td else m
  | None => nbands td
  end.

(** A scan in the order of the list that keeps the first entry and then every
    strictly better one: on the scores of the classes paired with their
    labels, with [first] true, it gives the label of the first best class. *)
Fixpoint first_best (better : float -> float -> bool) (l : list (float * Z))
    (first : bool) (best : float) (best_class : Z) : Z :=
  match l with
  | [] => best_class
  | (s, k) :: l' =>
      if first || better s best
      then first_best better l' false s k
      else first_best better l' first best best_class
  end.

(** A class whose statistics are resolved: [stats] is cached and has a mean. *)
Definition ready (cl : TrainingClass) : Prop :=
  exists st m, stats cl = Some st /\ mean st = Some m.

(** [n * cov[i, j]] for the statistics of a class, as float64 rounds it. *)
Definition weighted_entry (cl : TrainingClass) (i j : nat) : float :=
  match stats cl with
  | Some st =>
      match nsamples st with
      | Some n => (float_of_int n * entry (cov st) i j)%float
      | None => nan
      end
  | None => nan
  end.

(** The covariance of a class, when cached, is a [B x B] array. *)
Definition cov_shape (B : nat) (cl : TrainingClass) : Prop :=
  forall st, stats cl = Some st -> has_shape B B (cov st).

(** The inverse covariance of a class is [B x B] and its mean has [B]
    entries. *)
Definition stats_shape (B : nat) (cl : TrainingClass) : Prop :=
  forall st, stats cl = Some st ->
    has_shape B B (inv_cov st) /\ forall m, mean st = Some m -> length m = B.

(** The mean of a class, when it has one, has [B] entries. *)
Definition mean_length (B : nat) (cl : TrainingClass) : Prop :=
  forall st m, stats cl = Some st -> mean st = Some m -> length m = B.

(** Every pixel of the image has [B] bands. *)
Definition image_bands (B : nat) (image : Image) : Prop :=
  forall r c, length (pixel image r c) = B.

(** A prior inside the domain of [math.log]: neither zero nor negative. *)
Definition log_defined (p : float) : Prop := (p <=? 0)%float = false.

(** The class map whose entry at a pixel is the label of its spectrum. *)
Definition class_map_data (label : vector -> Z) (image : Image) : list (list Z) :=
  map (fun r => map (fun c => label (pixel image r c)) (seq 0 (im_cols image)))
      (seq 0 (im_rows image)).

(** [(x - m)^T * C * (x - m)] for [x] and [m] of [B] entries and [C] of
    [B x B], every product and sum rounded as float64 does and every sum
    taken in the order of the index. *)
Definition squared_distance (C : matrix) (m x : vector) : float :=
  let delta := zip_with PrimFloat.sub x m in
  inner delta (map (fun row => inner row delta) C).

Section Scores.
Context `{Externals}.

(** The Gaussian discriminant of the specification,
    [log(p) - 0.5 * logdet - 0.5 * (x - mean)^T * inv_cov * (x - mean)]. *)
Definition score (cl : TrainingClass) (x : vector) : float :=
  match stats cl with
  | Some st =>
      match mean st with
      | Some m =>
          (log (class_prob cl) - half * log_det_cov st
           - half * squared_distance (inv_cov st) m x)%float
      | None => nan
      end
  | None => nan
  end.

(** The squared Mahalanobis distance of the specification,
    [(x - mean)^T * background.inv_cov * (x - mean)]. *)
Definition distance2 (bg : GaussianStats) (cl : TrainingClass) (x : vector) : float :=
  match stats cl with
  | Some st =>
      match mean st with
      | Some m => squared_distance (inv_cov bg) m x
      | None => nan
      end
  | None => nan
  end.

End Scores.

(** ** The class statements and the deprecated methods *)

(** The four classes of the file. *)
Inductive class_name : Type :=
  | Classifier_class
  | SupervisedClassifier_class
  | GaussianClassifier_class
  | MahalanobisDistanceClassifier_class.

(** The names that follow [def] or [self.] in the file. *)
Inductive attribute : Type :=
  | a_init
  | a_classify_spectrum
  | a_classify_image
  | a_classifySpectrum
  | a_classifyImage
  | a_train
  | a_classify_pectrum.

#[global] Instance attribute_eq_dec : EqDecision attribute.
Proof. solve_decision. Defined.

(** [class C(B)]: the classes in which Python looks an attribute up, from the
    class of the instance to [Classifier]. *)
Definition mro (c : class_name) : list class_name :=
  match c with
  | Classifier_class => [Classifier_class]
  | SupervisedClassifier_class => [SupervisedClassifier_class; Classifier_class]
  | GaussianClassifier_class =>
      [GaussianClassifier_class; SupervisedClassifier_class; Classifier_class]
  | MahalanobisDistanceClassifier_class =>
      [MahalanobisDistanceClassifier_class; GaussianClassifier_class;
       SupervisedClassifier_class; Classifier_class]
  end.

(** The methods that the body of each class defines. *)
Definition defines (k : class_name) : list attribute :=
  match k with
  | Classifier_class =>
      [a_init; a_classify_spectrum; a_classify_image; a_classifySpectrum; a_classifyImage]
  | SupervisedClassifier_class => [a_init; a_train]
  | GaussianClassifier_class =>
      [a_init; a_train; a_classify_spectrum; a_classify_image; a_classifySpectrum]
  | MahalanobisDistanceClassifier_class =>
      [a_train; a_classify_spectrum; a_classify_image; a_classifySpectrum]
  end.

(** [self.a] on an instance of class [c]: the class whose method is found. *)
Definition resolve (c : class_name) (a : attribute) : option class_name :=
  List.find (fun k => bool_decide (a ∈ defines k)) (mro c).

(** How a call ends: as a [result], or with the [RuntimeError] of Python for
    a recursion deeper than the limit. *)
Inductive call_result (A : Type) : Type :=
  | Done (r : result A)
  | MaximumRecursionDepth.
Arguments Done {A} r.
Arguments MaximumRecursionDepth {A}.

Section Deprecated.
(** The class of the instance, and how the methods that are not deprecated
    end on it with the arguments of the call ([other k a] is the method [a] as
    class [k] defines it). *)
Variable c : class_name.
Variable other : class_name -> attribute -> call_result Z.

(** The method [a] as class [k] defines it, with [depth] frames left under
    the recursion limit.  The deprecated methods call [warn], which is left
    out, and then
    - [Classifier.classifySpectrum], [GaussianClassifier.classifySpectrum]:
      [return self.classifySpectrum(...)] with the same arguments;
    - [MahalanobisDistanceClassifier.classifySpectrum]:
      [return self.classify_pectrum(...)] with the same arguments;
    - [Classifier.classifyImage]: [return self.classify_image(image)]. *)
Fixpoint run (depth : nat) (k : class_name) (a : attribute) : call_result Z :=
  match depth with
  | O => MaximumRecursionDepth
  | S depth' =>
      let call a' :=
        match resolve c a' with
        | Some k' => run depth' k' a'
        | None => Done (Raise AttributeError)
        end in
      match k, a with
      | Classifier_class, a_classifySpectrum => call a_classifySpectrum
      | GaussianClassifier_class, a_classifySpectrum => call a_classifySpectrum
      | MahalanobisDistanceClassifier_class, a_classifySpectrum => call a_classify_pectrum
      | Classifier_class, a_classifyImage => call a_classify_image
      | _, _ => other k a
      end
  end.

(** [obj.a(...)] on the instance. *)
Definition invoke (a : attribute) (depth : nat) : call_result Z :=
  match resolve c a with
  | Some k => run depth k a
  | None => Done (Raise AttributeError)
  end.

End Deprecated.

(** ** Further notions *)

(** The class that a printed line names. *)
Definition diagnostic_class (d : diagnostic) : Z :=
  match d with
  | Omitting class_index _ => class_index
  end.

(** The mean of the cached statistics of a class. *)
Definition class_mean (cl : TrainingClass) : option vector :=
  match stats cl with
  | Some st => mean st
  | None => None
  end.

(** Two classes with the same label and the same mean. *)
Definition same_label_and_mean (cl cl' : TrainingClass) : Prop :=
  index cl = index cl' /\ class_mean cl = class_mean cl'.

(** ** Sample data *)

Module Sample.

(** A stand-in for the collaborators: [calc_stats] gives a class whose
    label is [k] the mean [(k, k)] and the identity covariance, and the
    detector scores a pixel by its squared distance to the background mean. *)
Definition identity2 : matrix := [[1%float; 0%float]; [0%float; 1%float]].
Definition stats_at (k n : Z) : GaussianStats :=
  {| mean := Some [float_of_int k; float_of_int k];
     cov := identity2;
     inv_cov := identity2;
     log_det_cov := 0%float;
     nsamples := Some n |}.
#[global] Instance externals : Externals :=
  {| log := fun _ => 0%float;
     calc_stats := fun cl => stats_at (index cl) (size cl);
     inverse := fun m => m;
     log_det := fun _ => 0%float;
     rx_score := fun bg px =>
       match mean bg with
       | Some m => squared_distance (inv_cov bg) m px
       | None => nan
       end |}.

Definition training_class (k n : Z) : TrainingClass :=
  {| index := k; size := n; class_prob := 1%float; stats := None |}.

(** Three classes with 5, 20 and 3 samples, two bands. *)
Definition training_data : TrainingClassSet :=
  {| nbands := 2;
     td_classes := [training_class 1 5; training_class 2 20; training_class 3 3] |}.

(** Two classes with 20 and 30 samples. *)
Definition training_data2 : TrainingClassSet :=
  {| nbands := 2;
     td_classes := [training_class 0 20; training_class 5 30] |}.

Definition untrained : GaussianClassifier.t := GaussianClassifier.init_attributes None.

(** The [10 x 10] image as a view of a cube that lies in memory band after
    band. *)
Definition band_sequential : Image :=
  {| im_rows := 10; im_cols := 10;
     pixel := fun r c => [float_of_int (Z.of_nat r); float_of_int (Z.of_nat c)];
     c_contiguous := false |}.

(** Images of one pixel, of no pixel, and of [10 x 10] pixels, in C order. *)
Definition one_pixel : Image :=
  {| im_rows := 1; im_cols := 1; pixel := fun _ _ => [0%float; 0%float];
     c_contiguous := true |}.
Definition no_pixel : Image :=
  {| im_rows := 0; im_cols := 0; pixel := fun _ _ => []; c_contiguous := true |}.
Definition ten_by_ten : Image :=
  {| im_rows := 10; im_cols := 10;
     pixel := fun r c => [float_of_int (Z.of_nat r); float_of_int (Z.of_nat c)];
     c_contiguous := true |}.

(** Classifiers trained on the two classes, with the batched path (the
    default) and with [cache_class_scores] set to [False]. *)
Definition gaussian : GaussianClassifier.t :=
  (GaussianClassifier.train untrained training_data2).1.
Definition gaussian_streaming : GaussianClassifier.t :=
  GaussianClassifier.set_cache_class_scores false gaussian.
Definition mahalanobis : MahalanobisDistanceClassifier.t :=
  (MahalanobisDistanceClassifier.train
     {| MahalanobisDistanceClassifier.base := untrained;
        MahalanobisDistanceClassifier.background := None |} training_data2).1.1.
Definition mahalanobis_streaming : MahalanobisDistanceClassifier.t :=
  MahalanobisDistanceClassifier.set_cache_class_scores false mahalanobis.

(** A classifier whose training kept no class. *)
Definition demanding : GaussianClassifier.t := GaussianClassifier.init_attributes (Some 100).

(** The classes that training on [training_data2] keeps, and the background
    it pools. *)
Definition kept : list TrainingClass :=
  [GaussianClassifier.ensure_stats (training_class 0 20);
   GaussianClassifier.ensure_stats (training_class 5 30)].
Definition pooled : GaussianStats :=
  MahalanobisDistanceClassifier.GaussianStats_of_cov
    [[50%float; 0%float]; [0%float; 50%float]].

(** A Mahalanobis classifier before training, and classifiers trained on
    the class of 20 samples alone. *)
Definition untrained_mahalanobis : MahalanobisDistanceClassifier.t :=
  {| MahalanobisDistanceClassifier.base := untrained;
     MahalanobisDistanceClassifier.background := None |}.
Definition training_data1 : TrainingClassSet :=
  {| nbands := 2; td_classes := [training_class 2 20] |}.
Definition gaussian1 : GaussianClassifier.t :=
  (GaussianClassifier.train untrained training_data1).1.

(** The kept classes with other priors, sizes and covariances, and a
    Mahalanobis classifier on them with the same pooled background. *)
Definition kept_otherwise : list TrainingClass :=
  [{| index := 0; size := 1; class_prob := half;
      stats := Some {| mean := Some [0%float; 0%float];
                       cov := []; inv_cov := []; log_det_cov := half;
                       nsamples := None |} |};
   {| index := 5; size := 2; class_prob := half;
      stats := Some {| mean := Some [5%float; 5%float];
                       cov := []; inv_cov := []; log_det_cov := half;
                       nsamples := None |} |}].
Definition mahalanobis_otherwise : MahalanobisDistanceClassifier.t :=
  {| MahalanobisDistanceClassifier.base :=
       {| GaussianClassifier.cache_class_scores := true;
          GaussianClassifier.min_samples := Some 1;
          GaussianClassifier.classes := Some kept_otherwise |};
     MahalanobisDistanceClassifier.background := Some pooled |}.

(** Classifiers whose training kept no class. *)
Definition gaussian0 : GaussianClassifier.t :=
  (GaussianClassifier.train demanding training_data).1.

End Sample.

(** ** Properties of the base class *)

(** C7: [classify_spectrum] of the base class raises [NotImplementedError]
    whatever its arguments. *)
Theorem base_classify_spectrum_not_implemented :
  forall (Args Kwargs : Type) (args : Args) (kwargs : Kwargs),
    Classifier.classify_spectrum args kwargs = Raise NotImplementedError.
Proof. reflexivity. Qed.

Lemma elements_cons (image : Image) :
  (0 < im_rows image)%nat -> (0 < im_cols image)%nat ->
  exists rest, ImageIterator.elements image = (0%nat, 0%nat, pixel image 0 0) :: rest.
Proof.
  unfold ImageIterator.elements.
  destruct (im_rows image) as [|r]; [lia|].
  destruct (im_cols image) as [|c]; [lia|].
  intros _ _. simpl. eauto.
Qed.

Lemma setitem2_zeros_origin (rows cols : nat) (v : Z) :
  (0 < rows)%nat -> (0 < cols)%nat ->
  exists a, setitem2 (repeat (repeat 0 cols) rows) 0 0 v = Ok a.
Proof.
  destruct rows as [|r]; [lia|]. destruct cols as [|c]; [lia|].
  intros _ _. unfold setitem2. simpl. eauto.
Qed.

(** The default [classify_image] of the base class itself fails on the first
    pixel, before any progress arithmetic. *)
Lemma base_classify_image_not_implemented (image : Image) :
  (0 < im_rows image)%nat -> (0 < im_cols image)%nat ->
  Classifier.classify_image (fun x => Classifier.classify_spectrum x tt) image
  = Raise NotImplementedError.
Proof.
  intros Hr Hc. unfold Classifier.classify_image.
  destruct (elements_cons image Hr Hc) as [rest ->]. reflexivity.
Qed.

Lemma num_elements_pos (image : Image) :
  0 < ImageIterator.get_num_elements image ->
  (0 < im_rows image)%nat /\ (0 < im_cols image)%nat.
Proof. unfold ImageIterator.get_num_elements. nia. Qed.

Lemma loop_no_zero_division (classify : vector -> result Z) (inc : Z) :
  inc <> 0 ->
  (forall x, classify x <> Raise ZeroDivisionError) ->
  forall it i class_map,
    Classifier.loop classify it inc i class_map <> Raise ZeroDivisionError.
Proof.
  intros Hinc Hc it. induction it as [|[[r c] s] it IH]; intros i class_map; simpl.
  - discriminate.
  - specialize (Hc s). destruct (classify s) as [v|e]; simpl; [|congruence].
    unfold setitem2. destruct (class_map !! r) as [row|]; simpl; [|discriminate].
    destruct (decide (c < length row)%nat); simpl; [|discriminate].
    destruct (Z.eqb_spec inc 0); [contradiction|]. apply IH.
Qed.

(** With at least one and fewer than 100 pixels the increment is zero, and
    the call ends in [ZeroDivisionError] once the first pixel is classified. *)
Lemma default_path_zero_division (classify : vector -> result Z) (image : Image) (v : Z) :
  0 < ImageIterator.get_num_elements image < 100 ->
  classify (pixel image 0 0) = Ok v ->
  Classifier.classify_image classify image = Raise ZeroDivisionError.
Proof.
  intros [Hpos Hlt] Hv.
  destruct (num_elements_pos image Hpos) as [Hr Hc].
  unfold Classifier.classify_image.
  rewrite (Z.div_small (ImageIterator.get_num_elements image) 100)
    by (unfold ImageIterator.get_num_elements in *; lia).
  destruct (elements_cons image Hr Hc) as [rest ->].
  destruct (setitem2_zeros_origin _ _ v Hr Hc) as [a Ha].
  simpl. rewrite Hv. simpl. rewrite Ha. reflexivity.
Qed.

(** C9, as amended: the increment is [N / 100], which is zero exactly when
    the image has fewer than 100 pixels; an image with at least one and fewer
    than 100 pixels, whose first pixel [classify_spectrum] classifies, ends
    in [ZeroDivisionError]; with at least 100 pixels the modulo never
    raises. *)
Theorem streaming_increment_zero_division :
  forall (classify : vector -> result Z) (image : Image),
    let N := ImageIterator.get_num_elements image in
    (N / 100 = 0 <-> N < 100) /\
    (0 < N < 100 ->
     (exists v, classify (pixel image 0 0) = Ok v) ->
     Classifier.classify_image classify image = Raise ZeroDivisionError) /\
    (100 <= N ->
     (forall x, classify x <> Raise ZeroDivisionError) ->
     Classifier.classify_image classify image <> Raise ZeroDivisionError).
Proof.
  intros classify image N.
  assert (HN : 0 <= N) by (unfold N, ImageIterator.get_num_elements; lia).
  split; [|split].
  - split; intros Hq.
    + destruct (Z.lt_ge_cases N 100) as [|Hge]; [done|].
      assert (1 <= N / 100) by (apply Z.div_le_lower_bound; lia). lia.
    + apply Z.div_small. lia.
  - intros Hsmall [v Hv]. by apply (default_path_zero_division classify image v).
  - intros Hge Hc Heq. unfold Classifier.classify_image in Heq. fold N in Heq.
    assert (Hinc : N / 100 <> 0).
    { assert (1 <= N / 100) by (apply Z.div_le_lower_bound; lia). lia. }
    pose proof (loop_no_zero_division classify (N / 100) Hinc Hc
                  (ImageIterator.elements image) 0
                  (repeat (repeat 0 (im_cols image)) (im_rows image))) as Hl.
    simpl in Heq.
    destruct (Classifier.loop classify _ _ _ _) as [d|e]; simpl in Heq; congruence.
Qed.

(** The image without pixels has fewer than 100 pixels and a zero increment,
    and the default [classify_image] returns its empty class map. *)
Lemma streaming_no_pixel_returns :
  ImageIterator.get_num_elements Sample.no_pixel < 100 /\
  ImageIterator.get_num_elements Sample.no_pixel / 100 = 0 /\
  Classifier.classify_image (fun _ => Ok 7) Sample.no_pixel
  = Ok {| cm_dtype := float64; cm_shape := (0%nat, 0%nat); cm_data := [] |}.
Proof. vm_compute. repeat split. Qed.

(** ** Training *)

Section Training.
Context `{Externals}.

Lemma select_filter (m : Z) (training_data classes : list TrainingClass)
    (printed : list diagnostic) :
  GaussianClassifier.select m training_data classes printed
  = (classes ++ filter (retained m) training_data,
     printed ++ map (fun cl => Omitting (index cl) (size cl))
                    (filter (fun cl => ~ retained m cl) training_data)).
Proof.
  revert classes printed.
  induction training_data as [|cl rest IH]; intros classes printed; simpl.
  - by rewrite !app_nil_r.
  - rewrite Z.geb_leb. destruct (Z.leb_spec m (size cl)) as [Hle|Hlt].
    + rewrite IH. rewrite filter_cons_True by done.
      rewrite (filter_cons_False (fun cl => ~ retained m cl)) by (unfold retained; lia).
      by rewrite <- app_assoc.
    + rewrite IH. rewrite filter_cons_False by (unfold retained; lia).
      rewrite (filter_cons_True (fun cl => ~ retained m cl)) by (unfold retained; lia).
      simpl. by rewrite <- app_assoc.
Qed.

Lemma ensure_stats_size (cl : TrainingClass) :
  size (GaussianClassifier.ensure_stats cl) = size cl.
Proof. unfold GaussianClassifier.ensure_stats. by destruct (stats cl). Qed.

Lemma ensure_stats_index (cl : TrainingClass) :
  index (GaussianClassifier.ensure_stats cl) = index cl.
Proof. unfold GaussianClassifier.ensure_stats. by destruct (stats cl). Qed.

Lemma ensure_stats_has_stats (cl : TrainingClass) :
  is_Some (stats (GaussianClassifier.ensure_stats cl)).
Proof.
  unfold GaussianClassifier.ensure_stats.
  destruct (stats cl) eqn:E; simpl; [rewrite E|]; eauto.
Qed.

Lemma train_unfold (self : GaussianClassifier.t) (td : TrainingClassSet) :
  GaussianClassifier.train self td
  = ({| GaussianClassifier.cache_class_scores := GaussianClassifier.cache_class_scores self;
        GaussianClassifier.min_samples := Some (threshold self td);
        GaussianClassifier.classes :=
          Some (map GaussianClassifier.ensure_stats
                    (filter (retained (threshold self td)) (td_classes td))) |},
     map (fun cl => Omitting (index cl) (size cl))
         (filter (fun cl => ~ retained (threshold self td) cl) (td_classes td))).
Proof.
  unfold GaussianClassifier.train. fold (threshold self td).
  by rewrite select_filter.
Qed.

(** C5: [train] keeps exactly the classes with at least [min_samples]
    samples, in the order of the training set; a class below the threshold is
    printed, and the call returns.  With 5, 20 and 3 samples and
    [min_samples = 10] the class with 20 samples alone is kept. *)
Theorem train_retains_by_threshold :
  (forall (self : GaussianClassifier.t) (td : TrainingClassSet),
     exists (m : Z) (cls : list TrainingClass),
       GaussianClassifier.min_samples (GaussianClassifier.train self td).1 = Some m /\
       (forall m0, GaussianClassifier.min_samples self = Some m0 -> m0 <> 0 -> m = m0) /\
       GaussianClassifier.classes (GaussianClassifier.train self td).1 = Some cls /\
       cls = map GaussianClassifier.ensure_stats
                 (filter (fun cl => m <= size cl) (td_classes td)) /\
       (forall cl, cl ∈ td_classes td ->
                   (m <= size cl <-> GaussianClassifier.ensure_stats cl ∈ cls)) /\
       (GaussianClassifier.train self td).2
       = map (fun cl => Omitting (index cl) (size cl))
             (filter (fun cl => ~ m <= size cl) (td_classes td))) /\
  (forall (cache : bool) (b i1 i2 i3 : Z) (p1 p2 p3 : float)
          (s1 s2 s3 : option GaussianStats),
     let c1 := {| index := i1; size := 5; class_prob := p1; stats := s1 |} in
     let c2 := {| index := i2; size := 20; class_prob := p2; stats := s2 |} in
     let c3 := {| index := i3; size := 3; class_prob := p3; stats := s3 |} in
     let self := {| GaussianClassifier.cache_class_scores := cache;
                    GaussianClassifier.min_samples := Some 10;
                    GaussianClassifier.classes := None |} in
     GaussianClassifier.train self {| nbands := b; td_classes := [c1; c2; c3] |}
     = ({| GaussianClassifier.cache_class_scores := cache;
           GaussianClassifier.min_samples := Some 10;
           GaussianClassifier.classes := Some [GaussianClassifier.ensure_stats c2] |},
        [Omitting i1 5; Omitting i3 3])).
Proof.
  split.
  - intros self td. exists (threshold self td). eexists.
    rewrite train_unfold. simpl. split; [done|]. split; [|split; [done|]].
    + intros m0 Hm0 Hne. unfold threshold. rewrite Hm0.
      destruct (Z.eqb_spec m0 0); [done|done].
    + split; [done|]. split; [|done].
      intros cl Hin. split.
      * intros Hle. apply list_elem_of_fmap. exists cl. split; [done|].
        apply list_elem_of_filter. done.
      * intros Hin'. apply list_elem_of_fmap in Hin' as (cl' & Heq & Hin').
        apply list_elem_of_filter in Hin' as [Hle _]. unfold retained in Hle.
        rewrite <- (ensure_stats_size cl), Heq, ensure_stats_size. done.
  - intros. reflexivity.
Qed.

(** C6: when [min_samples] was not supplied, [train] sets it to the number
    of bands of the training data and filters the classes with that number;
    so does construction with training data and no [min_samples]. *)
Theorem train_default_min_samples :
  forall (self : GaussianClassifier.t) (td : TrainingClassSet),
    GaussianClassifier.min_samples self = None ->
    GaussianClassifier.min_samples (GaussianClassifier.train self td).1
    = Some (nbands td) /\
    GaussianClassifier.classes (GaussianClassifier.train self td).1
    = Some (map GaussianClassifier.ensure_stats
                (filter (fun cl => nbands td <= size cl) (td_classes td))) /\
    GaussianClassifier.init (Some td) None
    = GaussianClassifier.train (GaussianClassifier.init_attributes None) td /\
    GaussianClassifier.min_samples (GaussianClassifier.init (Some td) None).1
    = Some (nbands td).
Proof.
  intros self td Hnone.
  assert (Ht : threshold self td = nbands td) by (unfold threshold; by rewrite Hnone).
  split; [by rewrite train_unfold; simpl; rewrite Ht|].
  split; [by rewrite train_unfold; simpl; rewrite Ht|].
  split; [reflexivity|].
  unfold GaussianClassifier.init. by rewrite train_unfold.
Qed.

End Training.

(** ** The order of float64 *)
















(** ** Scanning for the best class *)

Section FirstBest.
Variable better : float -> float -> bool.
Hypothesis better_irrefl : forall a, better a a = false.
Hypothesis better_asym : forall a b, better a b = true -> better b a = false.
Hypothesis better_trans :
  forall p b c, PrimFloat.is_nan c = false ->
                better p b = true -> better c b = false -> better p c = true.



End FirstBest.

(** A scan keeps the class it holds when no later entry is better. *)
Lemma first_best_keeps (better : float -> float -> bool) (rest : list (float * Z))
    (s0 : float) (i0 : Z) :
  Forall (fun si => better si.1 s0 = false) rest ->
  first_best better rest false s0 i0 = i0.
Proof.
  induction 1 as [|[s i] rest Hs _ IH]; [done|].
  simpl in *. by rewrite Hs.
Qed.

(** ** Classifying one spectrum *)

Lemma vsub_same_length (x m : vector) :
  length x = length m -> vsub x m = Ok (zip_with PrimFloat.sub x m).
Proof. intros Hl. unfold vsub. by rewrite decide_True. Qed.

Lemma quadratic_form_shape (B : nat) (C : matrix) (delta : vector) :
  has_shape B B C -> length delta = B ->
  quadratic_form C delta = Ok (inner delta (map (fun row => inner row delta) C)).
Proof.
  intros [Hlen Hrows] Hd. unfold quadratic_form, mat_vec.
  rewrite decide_True by (by rewrite Hd). simpl. unfold dot.
  rewrite decide_True; [done|]. rewrite length_map. lia.
Qed.

Section Spectrum.
Context `{Externals}.

Lemma prob_score (B : nat) (cl : TrainingClass) (st : GaussianStats) (m x : vector) :
  stats cl = Some st -> mean st = Some m ->
  stats_shape B cl -> length x = B -> log_defined (class_prob cl) ->
  GaussianClassifier.prob cl st m x = Ok (score cl x).
Proof.
  intros Hst Hm Hshape Hx Hlog. destruct (Hshape st Hst) as [Hinv Hmean].
  specialize (Hmean m Hm). unfold GaussianClassifier.prob.
  rewrite vsub_same_length by lia. simpl.
  unfold math_log. rewrite Hlog. simpl.
  rewrite (quadratic_form_shape B) by (done || rewrite length_zip_with; lia). simpl.
  unfold score, squared_distance. by rewrite Hst, Hm.
Qed.

Lemma gaussian_scan_first_best (B : nat) (x : vector) (cls : list TrainingClass) :
  length x = B ->
  Forall ready cls -> Forall (stats_shape B) cls ->
  Forall (fun cl => log_defined (class_prob cl)) cls ->
  forall (first : bool) (max_prob : float) (max_class : Z),
    GaussianClassifier.scan x cls first max_prob max_class
    = Ok (first_best gtb (map (fun cl => (score cl x, index cl)) cls)
                     first max_prob max_class).
Proof.
  intros Hx Hready. induction Hready as [|cl rest (st & m & Hst & Hm) _ IH];
    intros Hshape Hlog first max_prob max_class.
  - reflexivity.
  - apply Forall_cons in Hshape as [Hs Hshape]. apply Forall_cons in Hlog as [Hl Hlog].
    simpl. rewrite Hst. simpl. rewrite Hm. simpl.
    rewrite (prob_score B cl st m x) by done. simpl.
    destruct (first || _); by apply IH.
Qed.

Lemma d2_distance2 (B : nat) (bg : GaussianStats) (cl : TrainingClass)
    (st : GaussianStats) (m x : vector) :
  stats cl = Some st -> mean st = Some m ->
  has_shape B B (inv_cov bg) -> length m = B -> length x = B ->
  (delta <- vsub x m ;; quadratic_form (inv_cov bg) delta) = Ok (distance2 bg cl x).
Proof.
  intros Hst Hm Hinv Hmean Hx.
  rewrite vsub_same_length by lia. simpl.
  rewrite (quadratic_form_shape B) by (done || rewrite length_zip_with; lia).
  unfold distance2, squared_distance. by rewrite Hst, Hm.
Qed.

Lemma mahalanobis_scan_first_best (B : nat) (bg : GaussianStats) (x : vector)
    (cls : list TrainingClass) :
  length x = B -> has_shape B B (inv_cov bg) ->
  Forall ready cls -> Forall (mean_length B) cls ->
  forall (first : bool) (d2_min : float) (max_class : Z),
    MahalanobisDistanceClassifier.scan (Some bg) x cls first d2_min max_class
    = Ok (first_best PrimFloat.ltb (map (fun cl => (distance2 bg cl x, index cl)) cls)
                     first d2_min max_class).
Proof.
  intros Hx Hinv Hready. induction Hready as [|cl rest (st & m & Hst & Hm) _ IH];
    intros Hshape first d2_min max_class.
  - reflexivity.
  - apply Forall_cons in Hshape as [Hs Hshape].
    pose proof (d2_distance2 B bg cl st m x Hst Hm Hinv (Hs st m Hst Hm) Hx) as Hd.
    simpl. rewrite Hst. simpl. rewrite Hm. simpl.
    destruct (vsub x m) as [delta|e]; simpl in *; [|done].
    rewrite Hd. simpl. destruct (first || _); by apply IH.
Qed.



(** C10: after a training that kept no class, [classify_spectrum] of both
    classifiers returns [-1] for every spectrum, which is the label of no
    kept class. *)
Theorem classify_spectrum_without_classes :
  (forall (self : GaussianClassifier.t) (td : TrainingClassSet) (x : vector),
     let self' := (GaussianClassifier.train self td).1 in
     GaussianClassifier.classes self' = Some [] ->
     GaussianClassifier.classify_spectrum self' x = Ok (-1) /\
     forall cls, GaussianClassifier.classes self' = Some cls -> -1 ∉ map index cls) /\
  (forall (self : MahalanobisDistanceClassifier.t) (td : TrainingClassSet) (x : vector),
     let self' := (MahalanobisDistanceClassifier.train self td).1.1 in
     GaussianClassifier.classes (MahalanobisDistanceClassifier.base self') = Some [] ->
     MahalanobisDistanceClassifier.classify_spectrum self' x = Ok (-1) /\
     forall cls, GaussianClassifier.classes (MahalanobisDistanceClassifier.base self')
                 = Some cls -> -1 ∉ map index cls).
Proof.
  split.
  - intros self td x self' Hcls. split.
    + unfold GaussianClassifier.classify_spectrum. by rewrite Hcls.
    + intros cls Hcls'. rewrite Hcls in Hcls'. injection Hcls' as <-.
      simpl. apply not_elem_of_nil.
  - intros self td x self' Hcls. split.
    + unfold MahalanobisDistanceClassifier.classify_spectrum. by rewrite Hcls.
    + intros cls Hcls'. rewrite Hcls in Hcls'. injection Hcls' as <-.
      simpl. apply not_elem_of_nil.
Qed.

(** A training of the Mahalanobis classifier that keeps no class raises
    [IndexError] at [self.classes[0]], after [self.classes] was assigned. *)
Lemma mahalanobis_train_without_classes (self : MahalanobisDistanceClassifier.t)
    (td : TrainingClassSet) :
  GaussianClassifier.classes
    (MahalanobisDistanceClassifier.base (MahalanobisDistanceClassifier.train self td).1.1)
  = Some [] ->
  (MahalanobisDistanceClassifier.train self td).2 = Raise IndexError.
Proof.
  unfold MahalanobisDistanceClassifier.train.
  destruct (GaussianClassifier.train _ td) as [base' printed] eqn:Eg.
  destruct (MahalanobisDistanceClassifier.pool _) as [bg|e] eqn:Ep; simpl; intros Hcls.
  - unfold MahalanobisDistanceClassifier.pool in Ep. by rewrite Hcls in Ep.
  - unfold MahalanobisDistanceClassifier.pool in Ep. rewrite Hcls in Ep.
    simpl in Ep. congruence.
Qed.

End Spectrum.

(** ** The pooled background covariance *)

Lemma lookup_map {A B : Type} (f : A -> B) (l : list A) (i : nat) :
  map f l !! i = f <$> l !! i.
Proof. exact (list_lookup_fmap f l i). Qed.

Lemma entry_lookup (m : matrix) (i j : nat) (row : list float) (v : float) :
  m !! i = Some row -> row !! j = Some v -> entry m i j = v.
Proof.
  intros Hi Hj. unfold entry.
  rewrite (nth_lookup_Some _ _ _ _ Hi). by rewrite (nth_lookup_Some _ _ _ _ Hj).
Qed.

Lemma has_shape_lookup (B : nat) (m : matrix) (i j : nat) :
  has_shape B B m -> (i < B)%nat -> (j < B)%nat ->
  exists row v, m !! i = Some row /\ row !! j = Some v /\ length row = B.
Proof.
  intros [Hlen Hrows] Hi Hj.
  destruct (lookup_lt_is_Some_2 m i) as [row Hrow]; [lia|].
  rewrite Forall_forall in Hrows.
  assert (Hl : length row = B).
  { apply Hrows. by apply (list_elem_of_lookup_2 _ i). }
  destruct (lookup_lt_is_Some_2 row j) as [v Hv]; [lia|]. eauto.
Qed.

Lemma has_shape_zeros_like (B : nat) (m : matrix) :
  has_shape B B m -> has_shape B B (zeros_like m).
Proof.
  intros [Hlen Hrows]. split.
  - unfold zeros_like. by rewrite length_map.
  - unfold zeros_like. rewrite Forall_forall in *. intros row Hin.
    apply list_elem_of_fmap in Hin as (row' & -> & Hin). rewrite length_map. auto.
Qed.

Lemma entry_zeros_like (B : nat) (m : matrix) (i j : nat) :
  has_shape B B m -> (i < B)%nat -> (j < B)%nat -> entry (zeros_like m) i j = 0%float.
Proof.
  intros Hs Hi Hj. destruct (has_shape_lookup B m i j Hs Hi Hj) as (row & v & Hr & Hv & _).
  apply (entry_lookup _ _ _ (map (fun _ => 0%float) row)).
  - unfold zeros_like. by rewrite lookup_map, Hr.
  - by rewrite lookup_map, Hv.
Qed.

Lemma has_shape_mscale (B : nat) (n : float) (m : matrix) :
  has_shape B B m -> has_shape B B (mscale n m).
Proof.
  intros [Hlen Hrows]. split.
  - unfold mscale. by rewrite length_map.
  - unfold mscale. rewrite Forall_forall in *. intros row Hin.
    apply list_elem_of_fmap in Hin as (row' & -> & Hin). rewrite length_map. auto.
Qed.

Lemma broadcast_same {A : Type} (n : nat) (l : list A) :
  length l = n -> broadcast n l = Ok l.
Proof. intros Hl. unfold broadcast. by rewrite decide_True. Qed.

(** On two arrays of the same shape the in-place sum adds entry by entry. *)
Lemma iadd_rows (c : nat) (a b : matrix) :
  Forall (fun row => length row = c) a -> Forall (fun row => length row = c) b ->
  for_each (fun rr : list float * list float =>
              row <- broadcast (length rr.1) rr.2 ;; Ok (zip_with PrimFloat.add rr.1 row))
           (zip a b)
  = Ok (zip_with (zip_with PrimFloat.add) a b).
Proof.
  intros Ha. revert b. induction Ha as [|ra a Hra _ IH]; intros b Hb; [done|].
  destruct Hb as [|rb b Hrb Hb]; [done|].
  simpl. rewrite broadcast_same by lia. simpl. by rewrite IH.
Qed.

Lemma iadd_same_shape (B : nat) (a b : matrix) :
  has_shape B B a -> has_shape B B b ->
  iadd a b = Ok (zip_with (zip_with PrimFloat.add) a b).
Proof.
  intros [Hla Hra] [Hlb Hrb]. unfold iadd.
  rewrite broadcast_same by lia. simpl. by apply (iadd_rows B).
Qed.

Lemma has_shape_sum (B : nat) (a b : matrix) :
  has_shape B B a -> has_shape B B b ->
  has_shape B B (zip_with (zip_with PrimFloat.add) a b).
Proof.
  intros [Hla Hra] [Hlb Hrb]. split.
  - rewrite length_zip_with. lia.
  - rewrite Forall_forall in *. intros row Hin.
    apply list_elem_of_lookup in Hin as [i Hi].
    rewrite lookup_zip_with in Hi.
    destruct (a !! i) as [ra|] eqn:Ea; [|done]. simpl in Hi.
    destruct (b !! i) as [rb|] eqn:Eb; [|done]. simpl in Hi. injection Hi as <-.
    rewrite length_zip_with.
    rewrite (Hra ra), (Hrb rb); [lia| |].
    + by apply (list_elem_of_lookup_2 _ i).
    + by apply (list_elem_of_lookup_2 _ i).
Qed.

Lemma entry_sum_mscale (B : nat) (a m : matrix) (n : float) (i j : nat) :
  has_shape B B a -> has_shape B B m -> (i < B)%nat -> (j < B)%nat ->
  entry (zip_with (zip_with PrimFloat.add) a (mscale n m)) i j
  = (entry a i j + n * entry m i j)%float.
Proof.
  intros Ha Hm Hi Hj.
  destruct (has_shape_lookup B a i j Ha Hi Hj) as (ra & va & Hra & Hva & _).
  destruct (has_shape_lookup B m i j Hm Hi Hj) as (rm & vm & Hrm & Hvm & _).
  rewrite (entry_lookup a i j ra va Hra Hva), (entry_lookup m i j rm vm Hrm Hvm).
  apply (entry_lookup _ _ _ (zip_with PrimFloat.add ra (map (PrimFloat.mul n) rm))).
  - unfold mscale. by rewrite lookup_zip_with, Hra, lookup_map, Hrm.
  - by rewrite lookup_zip_with, Hva, lookup_map, Hvm.
Qed.

Section Pooling.
Context `{Externals}.

Lemma accumulate_sum (B : nat) (cls : list TrainingClass) :
  Forall (cov_shape B) cls ->
  forall (acc : matrix) (n0 : Z) (acc' : matrix) (n' : Z),
    has_shape B B acc ->
    MahalanobisDistanceClassifier.accumulate cls acc n0 = Ok (acc', n') ->
    has_shape B B acc' /\
    forall i j, (i < B)%nat -> (j < B)%nat ->
      entry acc' i j
      = fold_left PrimFloat.add (map (fun cl => weighted_entry cl i j) cls) (entry acc i j).
Proof.
  induction 1 as [|cl rest Hcl _ IH]; intros acc n0 acc' n' Hacc Hrun; simpl in Hrun.
  - injection Hrun as <- <-. by split.
  - destruct (stats cl) as [st|] eqn:Est; [|done]. simpl in Hrun.
    destruct (nsamples st) as [n|] eqn:En; [|done]. simpl in Hrun.
    pose proof (has_shape_mscale B (float_of_int n) _ (Hcl st Est)) as Hst.
    rewrite (iadd_same_shape B) in Hrun by done. simpl in Hrun.
    destruct (IH _ _ _ _ (has_shape_sum B _ _ Hacc Hst) Hrun) as [Hshape Hsum].
    split; [done|]. intros i j Hi Hj. rewrite (Hsum i j Hi Hj).
    rewrite (entry_sum_mscale B) by (done || by apply Hcl). simpl.
    do 2 f_equal. unfold weighted_entry. by rewrite Est, En.
Qed.

(** C2: after [train], the covariance of [background] is, entry by entry,
    the float64 sum, in the order of the kept classes and from zero, of the
    sample count times the covariance of the class, and nothing divides
    it. *)
Theorem background_covariance_weighted_sum :
  forall (self self' : MahalanobisDistanceClassifier.t) (td : TrainingClassSet)
         (printed : list diagnostic) (cls : list TrainingClass) (B : nat),
    MahalanobisDistanceClassifier.train self td = (self', printed, Ok tt) ->
    GaussianClassifier.classes (MahalanobisDistanceClassifier.base self') = Some cls ->
    Forall (cov_shape B) cls ->
    exists bg : GaussianStats,
      MahalanobisDistanceClassifier.background self' = Some bg /\
      has_shape B B (cov bg) /\
      forall i j, (i < B)%nat -> (j < B)%nat ->
        entry (cov bg) i j = sum (map (fun cl => weighted_entry cl i j) cls).
Proof.
  intros self self' td printed cls B Htrain Hcls Hshape.
  unfold MahalanobisDistanceClassifier.train in Htrain.
  destruct (GaussianClassifier.train _ td) as [base' printed'] eqn:Eg.
  destruct (MahalanobisDistanceClassifier.pool _) as [bg|e] eqn:Epool; [|done].
  injection Htrain as <- <-. simpl in Hcls. exists bg. split; [done|].
  unfold MahalanobisDistanceClassifier.pool in Epool. rewrite Hcls in Epool.
  simpl in Epool. unfold getitem in Epool.
  destruct (cls !! 0%nat) as [cl0|] eqn:E0; [|done]. simpl in Epool.
  destruct (stats cl0) as [st0|] eqn:Est0; [|done]. simpl in Epool.
  destruct (MahalanobisDistanceClassifier.accumulate _ _ _) as [[acc' n']|e] eqn:Eacc;
    [|done].
  simpl in Epool. injection Epool as <-. simpl.
  assert (Hst0 : has_shape B B (cov st0)).
  { rewrite Forall_forall in Hshape. apply (Hshape cl0); [|done].
    by apply (list_elem_of_lookup_2 _ 0). }
  destruct (accumulate_sum B cls Hshape _ _ _ _ (has_shape_zeros_like B _ Hst0) Eacc)
    as [Hs Hsum].
  split; [done|]. intros i j Hi Hj. rewrite (Hsum i j Hi Hj).
  by rewrite (entry_zeros_like B).
Qed.

End Pooling.

(** ** The class map of the default path *)

Section Streaming.
Variable classify : vector -> result Z.
Variable label : vector -> Z.
Hypothesis classify_label : forall x, classify x = Ok (label x).
Variable px : nat -> nat -> vector.
Variable inc : Z.

Lemma loop_counter (it : list (nat * nat * vector)) :
  forall (i j : Z) (cm : list (list Z)),
    Classifier.loop classify it inc i cm = Classifier.loop classify it inc j cm.
Proof.
  induction it as [|[[r c] s] it IH]; intros i j cm; [done|].
  simpl. destruct (classify s) as [v|e]; [|done]. simpl.
  destruct (setitem2 cm r c v) as [cm'|e]; [|done]. simpl.
  destruct (inc =? 0); [done|]. apply IH.
Qed.

Lemma loop_app (a b : list (nat * nat * vector)) :
  forall (i : Z) (cm : list (list Z)),
    Classifier.loop classify (a ++ b) inc i cm
    = (cm' <- Classifier.loop classify a inc i cm ;; Classifier.loop classify b inc i cm').
Proof.
  induction a as [|[[r c] s] a IH]; intros i cm; [done|].
  simpl. destruct (classify s) as [v|e]; [|done]. simpl.
  destruct (setitem2 cm r c v) as [cm'|e]; [|done]. simpl.
  destruct (inc =? 0); [done|].
  rewrite (loop_counter (a ++ b) (i + 1) i), (loop_counter a (i + 1) i). apply IH.
Qed.

Lemma loop_row (r : nat) (n : nat) :
  inc <> 0 \/ n = 0%nat ->
  forall (c0 : nat) (i : Z) (cm : list (list Z)) (row : list Z),
    cm !! r = Some row ->
    (c0 + n <= length row)%nat ->
    Classifier.loop classify (map (fun c => (r, c, px r c)) (seq c0 n)) inc i cm
    = Ok (<[r := take c0 row ++ map (fun c => label (px r c)) (seq c0 n)
                 ++ drop (c0 + n) row]> cm).
Proof.
  induction n as [|n IH]; intros Hinc c0 i cm row Hrow Hlen.
  - simpl. rewrite Nat.add_0_r, take_drop. by rewrite list_insert_id.
  - destruct Hinc as [Hinc|Hinc]; [|done].
    simpl. rewrite classify_label. simpl. unfold setitem2. rewrite Hrow.
    destruct (decide (c0 < length row)%nat) as [_|Hge]; [|lia]. simpl.
    destruct (Z.eqb_spec inc 0) as [|_]; [done|].
    assert (Hr : (r < length cm)%nat) by (by apply lookup_lt_Some in Hrow).
    rewrite (IH (or_introl Hinc) (S c0) (i + 1) _ (<[c0 := label (px r c0)]> row)).
    + rewrite list_insert_insert_eq. f_equal. f_equal.
      rewrite (take_S_r _ _ (label (px r c0)))
        by (apply list_lookup_insert_eq; lia).
      rewrite take_insert_ge by lia.
      rewrite drop_insert_lt by lia.
      rewrite <- app_assoc. simpl. by replace (c0 + S n)%nat with (S (c0 + n)) by lia.
    + by apply list_lookup_insert_eq.
    + rewrite length_insert. lia.
Qed.

Lemma loop_rows (cols : nat) (n : nat) :
  inc <> 0 \/ cols = 0%nat ->
  forall (r0 : nat) (i : Z) (cm : list (list Z)),
    Forall (fun row => length row = cols) cm ->
    (r0 + n <= length cm)%nat ->
    Classifier.loop classify
      (flat_map (fun r => map (fun c => (r, c, px r c)) (seq 0 cols)) (seq r0 n)) inc i cm
    = Ok (take r0 cm
          ++ map (fun r => map (fun c => label (px r c)) (seq 0 cols)) (seq r0 n)
          ++ drop (r0 + n) cm).
Proof.
  intros Hinc. induction n as [|n IH]; intros r0 i cm Hcm Hlen.
  - simpl. by rewrite Nat.add_0_r, take_drop.
  - simpl. rewrite loop_app.
    destruct (lookup_lt_is_Some_2 cm r0) as [row Hrow]; [lia|].
    assert (Hrl : length row = cols).
    { rewrite Forall_forall in Hcm. apply Hcm. by apply (list_elem_of_lookup_2 _ r0). }
    rewrite (loop_row r0 cols Hinc 0 i cm row Hrow) by lia. simpl.
    rewrite (drop_ge row cols) by lia. rewrite app_nil_r.
    set (row' := map (fun c => label (px r0 c)) (seq 0 cols)).
    rewrite IH.
    + rewrite (take_S_r _ _ row') by (apply list_lookup_insert_eq; lia).
      rewrite take_insert_ge by lia. rewrite drop_insert_lt by lia.
      rewrite <- app_assoc. simpl. by replace (r0 + S n)%nat with (S (r0 + n)) by lia.
    + apply Forall_insert; [done|]. subst row'. by rewrite length_map, length_seq.
    + rewrite length_insert. lia.
Qed.

End Streaming.

(** The default path, when it returns, gives the float64 class map whose
    entry at a pixel is the label of its spectrum: it returns for at least
    100 pixels and for none. *)
Lemma streaming_class_map (classify : vector -> result Z) (label : vector -> Z)
    (image : Image) :
  (forall x, classify x = Ok (label x)) ->
  100 <= ImageIterator.get_num_elements image \/ ImageIterator.get_num_elements image = 0 ->
  Classifier.classify_image classify image
  = Ok {| cm_dtype := float64;
          cm_shape := (im_rows image, im_cols image);
          cm_data := class_map_data label image |}.
Proof.
  intros Hf HN. unfold Classifier.classify_image.
  assert (Hinc : ImageIterator.get_num_elements image / 100 <> 0
                 \/ im_cols image = 0%nat \/ im_rows image = 0%nat).
  { destruct HN as [HN|HN].
    - left. assert (1 <= ImageIterator.get_num_elements image / 100)
        by (apply Z.div_le_lower_bound; lia). lia.
    - right. unfold ImageIterator.get_num_elements in HN. nia. }
  unfold ImageIterator.elements, class_map_data.
  destruct Hinc as [Hinc|[Hinc|Hinc]].
  - rewrite (loop_rows classify label Hf (pixel image) _ (im_cols image) (im_rows image)
               (or_introl Hinc) 0 0).
    + simpl. rewrite drop_ge by (by rewrite repeat_length). by rewrite app_nil_r.
    + apply Forall_forall. intros row Hin. apply list_elem_of_In, repeat_spec in Hin.
      subst row. by rewrite repeat_length.
    + by rewrite repeat_length.
  - rewrite (loop_rows classify label Hf (pixel image) _ (im_cols image) (im_rows image)
               (or_intror Hinc) 0 0).
    + simpl. rewrite drop_ge by (by rewrite repeat_length). by rewrite app_nil_r.
    + apply Forall_forall. intros row Hin. apply list_elem_of_In, repeat_spec in Hin.
      subst row. by rewrite repeat_length.
    + by rewrite repeat_length.
  - rewrite Hinc. reflexivity.
Qed.

(** ** The sample image of one pixel *)

(** C1: on an image of one pixel the batched path of either classifier
    returns the class map, and the path taken when [cache_class_scores] is
    false raises [ZeroDivisionError]. *)
Theorem batched_and_streaming_differ_on_one_pixel :
  GaussianClassifier.classify_image Sample.gaussian Sample.one_pixel
  = Ok {| cm_dtype := int64; cm_shape := (1%nat, 1%nat); cm_data := [[0]] |} /\
  GaussianClassifier.classify_image Sample.gaussian_streaming Sample.one_pixel
  = Raise ZeroDivisionError /\
  (MahalanobisDistanceClassifier.classify_image Sample.mahalanobis Sample.one_pixel).2
  = Ok {| cm_dtype := int64; cm_shape := (1%nat, 1%nat); cm_data := [[0]] |} /\
  (MahalanobisDistanceClassifier.classify_image
     Sample.mahalanobis_streaming Sample.one_pixel).2
  = Raise ZeroDivisionError.
Proof. vm_compute. repeat split. Qed.

(** C8: the default path of [classify_image] returns no class map for an
    image of one pixel, with one or two kept classes, and for an image of
    [10 x 10] pixels it returns a float64 array. *)
Theorem streaming_returns_no_integer_map :
  Classifier.classify_image
    (GaussianClassifier.classify_spectrum Sample.gaussian) Sample.one_pixel
  = Raise ZeroDivisionError /\
  Classifier.classify_image
    (MahalanobisDistanceClassifier.classify_spectrum Sample.mahalanobis) Sample.one_pixel
  = Raise ZeroDivisionError /\
  (exists data,
     GaussianClassifier.classify_image Sample.gaussian_streaming Sample.ten_by_ten
     = Ok {| cm_dtype := float64; cm_shape := (10%nat, 10%nat); cm_data := data |}).
Proof.
  split; [by vm_compute|]. split; [by vm_compute|].
  eexists. vm_compute. reflexivity.
Qed.

(** ** Instances of the theorems on the sample data *)

Lemma streaming_increment_zero_division_witness :
  Classifier.classify_image (fun _ => Ok 7) Sample.one_pixel = Raise ZeroDivisionError /\
  Classifier.classify_image (fun _ => Ok 7) Sample.ten_by_ten <> Raise ZeroDivisionError.
Proof.
  split.
  - apply (proj1 (proj2 (streaming_increment_zero_division (fun _ => Ok 7) Sample.one_pixel))).
    + vm_compute. split; reflexivity.
    + exists 7. reflexivity.
  - apply (proj2 (proj2 (streaming_increment_zero_division (fun _ => Ok 7) Sample.ten_by_ten))).
    + vm_compute. discriminate.
    + intros x. discriminate.
Defined.

Lemma train_default_min_samples_witness :
  GaussianClassifier.min_samples
    (GaussianClassifier.train Sample.untrained Sample.training_data).1 = Some 2.
Proof.
  apply (train_default_min_samples Sample.untrained Sample.training_data).
  reflexivity.
Defined.





Lemma classify_spectrum_without_classes_witness :
  GaussianClassifier.classify_spectrum
    (GaussianClassifier.train Sample.demanding Sample.training_data).1 [4%float; 4%float]
  = Ok (-1) /\
  MahalanobisDistanceClassifier.classify_spectrum
    (MahalanobisDistanceClassifier.train
       {| MahalanobisDistanceClassifier.base := Sample.demanding;
          MahalanobisDistanceClassifier.background := None |}
       Sample.training_data).1.1 [4%float; 4%float]
  = Ok (-1).
Proof.
  split.
  - apply (proj1 classify_spectrum_without_classes Sample.demanding Sample.training_data).
    reflexivity.
  - apply (proj2 classify_spectrum_without_classes
             {| MahalanobisDistanceClassifier.base := Sample.demanding;
                MahalanobisDistanceClassifier.background := None |} Sample.training_data).
    reflexivity.
Defined.

Lemma background_covariance_weighted_sum_witness :
  exists bg : GaussianStats,
    MahalanobisDistanceClassifier.background Sample.mahalanobis = Some bg /\
    has_shape 2 2 (cov bg) /\
    forall i j, (i < 2)%nat -> (j < 2)%nat ->
      entry (cov bg) i j
      = sum (map (fun cl => weighted_entry cl i j)
                 [GaussianClassifier.ensure_stats (Sample.training_class 0 20);
                  GaussianClassifier.ensure_stats (Sample.training_class 5 30)]).
Proof.
  apply (background_covariance_weighted_sum
           {| MahalanobisDistanceClassifier.base := Sample.untrained;
              MahalanobisDistanceClassifier.background := None |}
           Sample.mahalanobis Sample.training_data2 []
           [GaussianClassifier.ensure_stats (Sample.training_class 0 20);
            GaussianClassifier.ensure_stats (Sample.training_class 5 30)] 2).
  - vm_compute. reflexivity.
  - reflexivity.
  - constructor; [|constructor; [|constructor]];
      intros st Hst; injection Hst as <-; (split; [reflexivity|]);
      (constructor; [reflexivity|constructor; [reflexivity|constructor]]).
Defined.

Lemma train_retains_by_threshold_witness :
  GaussianClassifier.train
    {| GaussianClassifier.cache_class_scores := true;
       GaussianClassifier.min_samples := Some 10;
       GaussianClassifier.classes := None |}
    Sample.training_data
  = ({| GaussianClassifier.cache_class_scores := true;
        GaussianClassifier.min_samples := Some 10;
        GaussianClassifier.classes :=
          Some [GaussianClassifier.ensure_stats (Sample.training_class 2 20)] |},
     [Omitting 1 5; Omitting 3 3]).
Proof.
  exact (proj2 train_retains_by_threshold true 2 1 2 3 1%float 1%float 1%float
           None None None).
Defined.

(** ** Further properties of training *)

Lemma broadcast_raises {A : Type} (n : nat) (l : list A) (e : exception) :
  broadcast n l = Raise e -> e = ValueError.
Proof.
  unfold broadcast. destruct (decide (length l = n)); [done|].
  destruct l as [|a [|b l]]; congruence.
Qed.

Lemma for_each_raises {A B : Type} (f : A -> result B) (l : list A) (e : exception) :
  for_each f l = Raise e -> exists a, a ∈ l /\ f a = Raise e.
Proof.
  induction l as [|a l IH]; [done|]. simpl.
  destruct (f a) as [b|e'] eqn:Ea; simpl.
  - destruct (for_each f l) as [bs|e'] eqn:El; simpl; [done|].
    intros He. injection He as ->. destruct (IH eq_refl) as (a' & Hin & Ha').
    exists a'. split; [by apply list_elem_of_further|done].
  - intros He. injection He as ->. exists a. split; [apply list_elem_of_here|done].
Qed.

(** The in-place sum raises nothing but [ValueError]. *)
Lemma iadd_raises (a b : matrix) (e : exception) : iadd a b = Raise e -> e = ValueError.
Proof.
  unfold iadd. destruct (broadcast (length a) b) as [rows|e'] eqn:Eb; simpl.
  - intros He. apply for_each_raises in He as ([ra rb] & _ & Hr). simpl in Hr.
    destruct (broadcast (length ra) rb) as [row|e'] eqn:Er; simpl in Hr; [done|].
    injection Hr as ->. by apply broadcast_raises in Er.
  - intros He. injection He as ->. by apply broadcast_raises in Eb.
Qed.

Section FurtherTraining.
Context `{Externals}.

Lemma accumulate_not_index_error (cls : list TrainingClass) :
  forall (acc : matrix) (n : Z),
    MahalanobisDistanceClassifier.accumulate cls acc n <> Raise IndexError.
Proof.
  induction cls as [|cl rest IH]; intros acc n; simpl; [done|].
  destruct (stats cl) as [st|]; simpl; [|done].
  destruct (nsamples st) as [k|]; simpl; [|done].
  destruct (iadd acc _) as [acc'|e] eqn:Ea; simpl; [apply IH|].
  apply iadd_raises in Ea as ->. done.
Qed.

Lemma pool_index_error (classes : option (list TrainingClass)) :
  MahalanobisDistanceClassifier.pool classes = Raise IndexError <-> classes = Some [].
Proof.
  unfold MahalanobisDistanceClassifier.pool. split.
  - destruct classes as [[|cl0 rest]|]; [done| |done].
    cbn -[MahalanobisDistanceClassifier.accumulate].
    destruct (stats cl0) as [st0|]; cbn -[MahalanobisDistanceClassifier.accumulate];
      [|done].
    destruct (MahalanobisDistanceClassifier.accumulate _ _ _) as [acc|e] eqn:Ea; [done|].
    intros Hp. injection Hp as ->. by apply accumulate_not_index_error in Ea.
  - by intros ->.
Qed.

(** X7: [MahalanobisDistanceClassifier.train] raises [IndexError] exactly
    when no class is kept; whenever it raises, [background] is left as it
    was, and when it returns, [background] is a new object without a mean. *)
Theorem mahalanobis_train_index_error :
  forall (self : MahalanobisDistanceClassifier.t) (td : TrainingClassSet),
    let out := MahalanobisDistanceClassifier.train self td in
    (out.2 = Raise IndexError
     <-> GaussianClassifier.classes (MahalanobisDistanceClassifier.base out.1.1) = Some []) /\
    (out.2 <> Ok tt ->
     MahalanobisDistanceClassifier.background out.1.1
     = MahalanobisDistanceClassifier.background self) /\
    (out.2 = Ok tt ->
     exists bg, MahalanobisDistanceClassifier.background out.1.1 = Some bg /\
                mean bg = None /\ inv_cov bg = inverse (cov bg)).
Proof.
  intros self td out. subst out. unfold MahalanobisDistanceClassifier.train.
  destruct (GaussianClassifier.train _ td) as [base' printed] eqn:Eg.
  pose proof (pool_index_error (GaussianClassifier.classes base')) as Hp.
  destruct (MahalanobisDistanceClassifier.pool _) as [bg|e] eqn:Ep; simpl.
  - split; [|split].
    + split; [done|]. intros Hcls. by apply Hp in Hcls.
    + done.
    + intros _. exists bg. split; [done|].
      unfold MahalanobisDistanceClassifier.pool in Ep.
      destruct (getattr _) as [cls|]; simpl in Ep; [|done].
      destruct (getitem cls 0) as [cl0|]; simpl in Ep; [|done].
      destruct (getattr (stats cl0)) as [st0|]; simpl in Ep; [|done].
      destruct (MahalanobisDistanceClassifier.accumulate _ _ _) as [acc|]; simpl in Ep;
        [|done].
      by injection Ep as <-.
  - split; [|split].
    + split.
      * intros He. injection He as ->. by apply Hp.
      * intros Hcls. apply Hp in Hcls. congruence.
    + done.
    + done.
Qed.

End FurtherTraining.

Lemma mahalanobis_train_index_error_witness :
  (MahalanobisDistanceClassifier.train
     {| MahalanobisDistanceClassifier.base := Sample.demanding;
        MahalanobisDistanceClassifier.background := None |} Sample.training_data).2
  = Raise IndexError.
Proof.
  apply (proj1 (mahalanobis_train_index_error
                  {| MahalanobisDistanceClassifier.base := Sample.demanding;
                     MahalanobisDistanceClassifier.background := None |}
                  Sample.training_data)).
  reflexivity.
Defined.

Section Retraining.
Context `{Externals}.

(** X11: once [train] has stored a non-zero [min_samples], a later [train]
    filters by that number, whatever the number of bands of the new training
    data. *)
Theorem retrain_keeps_min_samples :
  forall (self : GaussianClassifier.t) (td td' : TrainingClassSet),
    threshold self td <> 0 ->
    let trained := (GaussianClassifier.train self td).1 in
    GaussianClassifier.min_samples (GaussianClassifier.train trained td').1
    = Some (threshold self td) /\
    GaussianClassifier.classes (GaussianClassifier.train trained td').1
    = Some (map GaussianClassifier.ensure_stats
                (filter (fun cl => threshold self td <= size cl) (td_classes td'))).
Proof.
  intros self td td' Hne trained. subst trained.
  rewrite (train_unfold self td). simpl.
  rewrite train_unfold. simpl.
  assert (Ht : threshold
                 {| GaussianClassifier.cache_class_scores :=
                      GaussianClassifier.cache_class_scores self;
                    GaussianClassifier.min_samples := Some (threshold self td);
                    GaussianClassifier.classes :=
                      Some (map GaussianClassifier.ensure_stats
                              (filter (retained (threshold self td)) (td_classes td))) |}
                 td' = threshold self td).
  { unfold threshold at 1. simpl. by destruct (Z.eqb_spec (threshold self td) 0). }
  by rewrite Ht.
Qed.

(** X12: [min_samples=0] at construction counts as not supplied: the
    classifier is the one built without [min_samples], and classes with fewer
    samples than bands are left out. *)
Theorem init_zero_min_samples :
  forall (td : TrainingClassSet),
    GaussianClassifier.init (Some td) (Some 0) = GaussianClassifier.init (Some td) None /\
    GaussianClassifier.classes (GaussianClassifier.init (Some td) (Some 0)).1
    = Some (map GaussianClassifier.ensure_stats
                (filter (fun cl => nbands td <= size cl) (td_classes td))).
Proof.
  intros td. split; [reflexivity|].
  unfold GaussianClassifier.init. by rewrite train_unfold.
Qed.

(** X13: [train] splits the training set: every class is either kept or
    printed, the labels of both together are those of the training set, and
    the kept labels come in the order of the training set. *)
Theorem train_partitions_training_set :
  forall (self : GaussianClassifier.t) (td : TrainingClassSet),
  exists cls,
    GaussianClassifier.classes (GaussianClassifier.train self td).1 = Some cls /\
    (length cls + length (GaussianClassifier.train self td).2
     = length (td_classes td))%nat /\
    map index cls ++ map diagnostic_class (GaussianClassifier.train self td).2
    ≡ₚ map index (td_classes td) /\
    map index cls `sublist_of` map index (td_classes td).
Proof.
  intros self td. rewrite train_unfold. simpl. eexists. split; [done|].
  set (m := threshold self td). set (l := td_classes td).
  assert (Hi : forall k : list TrainingClass,
             map index (map GaussianClassifier.ensure_stats k) = map index k).
  { intros k. rewrite map_map. apply map_ext. apply ensure_stats_index. }
  assert (Hd : forall k : list TrainingClass,
             map diagnostic_class (map (fun cl => Omitting (index cl) (size cl)) k)
             = map index k).
  { intros k. by rewrite map_map. }
  assert (Hperm : filter (retained m) l ++ filter (fun cl => ~ retained m cl) l ≡ₚ l)
    by apply filter_app_complement.
  split; [|split].
  - rewrite !length_map, <- length_app. by apply Permutation_length.
  - rewrite Hi, Hd, <- map_app. by apply (fmap_Permutation index).
  - rewrite Hi. apply (fmap_sublist index). apply sublist_filter.
Qed.

(** X14: after [train] every kept class has cached statistics; a kept class
    that had them keeps the same ones, and when every class of the training
    set has them the kept classes are those of the training set, unchanged. *)
Theorem train_caches_statistics :
  forall (self : GaussianClassifier.t) (td : TrainingClassSet),
  exists cls,
    GaussianClassifier.classes (GaussianClassifier.train self td).1 = Some cls /\
    Forall (fun cl => is_Some (stats cl)) cls /\
    (forall cl, cl ∈ td_classes td -> threshold self td <= size cl ->
                is_Some (stats cl) -> cl ∈ cls) /\
    (Forall (fun cl => is_Some (stats cl)) (td_classes td) ->
     cls = filter (fun cl => threshold self td <= size cl) (td_classes td)).
Proof.
  intros self td. rewrite train_unfold. simpl. eexists. split; [done|].
  assert (Hid : forall cl, is_Some (stats cl) -> GaussianClassifier.ensure_stats cl = cl).
  { intros cl [st Hst]. unfold GaussianClassifier.ensure_stats. by rewrite Hst. }
  split; [|split].
  - apply Forall_forall. intros cl Hin.
    apply list_elem_of_fmap in Hin as (cl' & -> & _). apply ensure_stats_has_stats.
  - intros cl Hin Hle Hst. apply list_elem_of_fmap. exists cl. split.
    + by rewrite Hid.
    + by apply list_elem_of_filter.
  - intros Hall.
    transitivity (map id (filter (retained (threshold self td)) (td_classes td)));
      [|by rewrite map_id].
    apply map_ext_in. intros cl Hin. apply Hid.
    rewrite Forall_forall in Hall. apply Hall.
    apply list_elem_of_In in Hin. by apply list_elem_of_filter in Hin as [_ Hin].
Qed.

End Retraining.

Lemma retrain_keeps_min_samples_witness :
  GaussianClassifier.min_samples
    (GaussianClassifier.train
       (GaussianClassifier.train Sample.untrained Sample.training_data).1
       {| nbands := 7; td_classes := [] |}).1
  = Some 2.
Proof.
  apply (retrain_keeps_min_samples Sample.untrained Sample.training_data
           {| nbands := 7; td_classes := [] |}).
  vm_compute. discriminate.
Defined.

Lemma train_caches_statistics_witness :
  exists cls,
    GaussianClassifier.classes
      (GaussianClassifier.train Sample.untrained
         {| nbands := 2; td_classes := Sample.kept |}).1 = Some cls /\
    cls = Sample.kept.
Proof.
  destruct (train_caches_statistics Sample.untrained
              {| nbands := 2; td_classes := Sample.kept |}) as (cls & Hc & _ & _ & Hall).
  exists cls. split; [exact Hc|].
  rewrite Hall.
  - reflexivity.
  - repeat constructor; eexists; reflexivity.
Defined.

(** ** Further properties of classification *)

(** A pixel whose classification raises ends the default path with that
    exception when it is the first pixel. *)
Lemma default_path_first_pixel_raises (classify : vector -> result Z) (image : Image)
    (e : exception) :
  0 < ImageIterator.get_num_elements image ->
  classify (pixel image 0 0) = Raise e ->
  Classifier.classify_image classify image = Raise e.
Proof.
  intros Hpos He. destruct (num_elements_pos image Hpos) as [Hr Hc].
  unfold Classifier.classify_image.
  destruct (elements_cons image Hr Hc) as [rest ->]. simpl. by rewrite He.
Qed.

Lemma elements_nil (image : Image) :
  ImageIterator.get_num_elements image = 0 -> ImageIterator.elements image = [].
Proof.
  unfold ImageIterator.get_num_elements, ImageIterator.elements. intros HN.
  assert (Hz : im_rows image = 0%nat \/ im_cols image = 0%nat) by nia.
  destruct Hz as [-> | ->]; [done|]. simpl.
  induction (seq 0 (im_rows image)) as [|r l IH]; [done|]. done.
Qed.

Section FurtherClassification.
Context `{Externals}.

Lemma score_layers_background (image : Image) (cls : list TrainingClass) :
  Forall ready cls ->
  forall (bg0 : GaussianStats) (cl : TrainingClass) (st : GaussianStats),
    last cls = Some cl -> stats cl = Some st ->
    (MahalanobisDistanceClassifier.score_layers cls image (Some bg0)).1
    = Some (MahalanobisDistanceClassifier.set_mean bg0 (mean st)).
Proof.
  induction 1 as [|c rest (stc & m & Hst & Hm) Hrest IH]; intros bg0 cl st Hlast Hcl;
    [done|].
  simpl. rewrite Hst. simpl. unfold RX.call. simpl. rewrite Hm. simpl.
  destruct rest as [|c' rest'].
  - simpl in *. injection Hlast as <-. rewrite Hst in Hcl. injection Hcl as <-.
    by rewrite Hm.
  - rewrite last_cons_cons in Hlast.
    specialize (IH (MahalanobisDistanceClassifier.set_mean bg0 (Some m)) cl st Hlast Hcl).
    destruct (MahalanobisDistanceClassifier.score_layers (c' :: rest') image _)
      as [bg1 layers]. simpl in *. by rewrite IH.
Qed.

(** X8: the batched path of [MahalanobisDistanceClassifier.classify_image]
    changes the classifier in one place only: afterwards the mean of
    [background] is the mean of the last class, while its covariance, the
    inverse, and the attributes of the classifier are as before. *)
Theorem mahalanobis_batched_background :
  forall (self : MahalanobisDistanceClassifier.t) (cls : list TrainingClass)
         (bg : GaussianStats) (image : Image) (cl : TrainingClass) (st : GaussianStats),
    GaussianClassifier.cache_class_scores (MahalanobisDistanceClassifier.base self) = true ->
    GaussianClassifier.classes (MahalanobisDistanceClassifier.base self) = Some cls ->
    MahalanobisDistanceClassifier.background self = Some bg ->
    Forall ready cls ->
    last cls = Some cl -> stats cl = Some st ->
    let self' := (MahalanobisDistanceClassifier.classify_image self image).1 in
    MahalanobisDistanceClassifier.base self' = MahalanobisDistanceClassifier.base self /\
    MahalanobisDistanceClassifier.background self'
    = Some {| mean := mean st; cov := cov bg; inv_cov := inv_cov bg;
              log_det_cov := log_det_cov bg; nsamples := nsamples bg |}.
Proof.
  intros self cls bg image cl st Hcache Hcls Hbg Hready Hlast Hst self'. subst self'.
  unfold MahalanobisDistanceClassifier.classify_image. rewrite Hcache, Hcls, Hbg. simpl.
  pose proof (score_layers_background image cls Hready bg cl st Hlast Hst) as Hb.
  destruct (MahalanobisDistanceClassifier.score_layers cls image (Some bg)) as [bg1 layers].
  simpl in *. by rewrite Hb.
Qed.

(** X9: with exactly one class, [classify_spectrum] of either classifier
    returns its label for every spectrum of as many bands as the statistics
    have, whatever the score or the distance, NaN included. *)
Theorem single_class_always_chosen :
  forall (cl : TrainingClass) (B : nat) (x : vector),
    ready cl -> length x = B ->
    (forall self : GaussianClassifier.t,
       GaussianClassifier.classes self = Some [cl] ->
       stats_shape B cl -> log_defined (class_prob cl) ->
       GaussianClassifier.classify_spectrum self x = Ok (index cl)) /\
    (forall (self : MahalanobisDistanceClassifier.t) (bg : GaussianStats),
       GaussianClassifier.classes (MahalanobisDistanceClassifier.base self) = Some [cl] ->
       MahalanobisDistanceClassifier.background self = Some bg ->
       mean_length B cl -> has_shape B B (inv_cov bg) ->
       MahalanobisDistanceClassifier.classify_spectrum self x = Ok (index cl)).
Proof.
  intros cl B x Hready Hx.
  assert (Hone : Forall ready [cl]) by (by constructor).
  split.
  - intros self Hcls Hshape Hlog.
    unfold GaussianClassifier.classify_spectrum. rewrite Hcls. simpl getattr.
    unfold result_bind at 1.
    by rewrite (gaussian_scan_first_best B x [cl] Hx Hone) by (by constructor).
  - intros self bg Hcls Hbg Hshape Hinv.
    unfold MahalanobisDistanceClassifier.classify_spectrum. rewrite Hcls, Hbg.
    simpl getattr. unfold result_bind at 1.
    by rewrite (mahalanobis_scan_first_best B bg x [cl] Hx Hinv Hone) by (by constructor).
Qed.

(** X10: a later class replaces the first one only with a strictly better
    value, as float64 compares: when no class after the first has a score
    that is greater than that of the first (a distance that is smaller),
    [classify_spectrum] returns the label of the first class, in particular
    when classes tie. *)
Theorem first_class_wins_ties :
  forall (cl0 : TrainingClass) (rest : list TrainingClass) (B : nat) (x : vector),
    Forall ready (cl0 :: rest) -> length x = B ->
    (forall self : GaussianClassifier.t,
       GaussianClassifier.classes self = Some (cl0 :: rest) ->
       Forall (stats_shape B) (cl0 :: rest) ->
       Forall (fun cl => log_defined (class_prob cl)) (cl0 :: rest) ->
       Forall (fun cl => gtb (score cl x) (score cl0 x) = false) rest ->
       GaussianClassifier.classify_spectrum self x = Ok (index cl0)) /\
    (forall (self : MahalanobisDistanceClassifier.t) (bg : GaussianStats),
       GaussianClassifier.classes (MahalanobisDistanceClassifier.base self)
       = Some (cl0 :: rest) ->
       MahalanobisDistanceClassifier.background self = Some bg ->
       Forall (mean_length B) (cl0 :: rest) -> has_shape B B (inv_cov bg) ->
       Forall (fun cl => (distance2 bg cl x <? distance2 bg cl0 x)%float = false) rest ->
       MahalanobisDistanceClassifier.classify_spectrum self x = Ok (index cl0)).
Proof.
  intros cl0 rest B x Hready Hx. split.
  - intros self Hcls Hshape Hlog Hle.
    unfold GaussianClassifier.classify_spectrum. rewrite Hcls. simpl getattr.
    unfold result_bind at 1.
    rewrite (gaussian_scan_first_best B x _ Hx Hready) by done.
    simpl. f_equal. apply first_best_keeps. by apply Forall_fmap.
  - intros self bg Hcls Hbg Hshape Hinv Hle.
    unfold MahalanobisDistanceClassifier.classify_spectrum. rewrite Hcls, Hbg.
    simpl getattr. unfold result_bind at 1.
    rewrite (mahalanobis_scan_first_best B bg x _ Hx Hinv Hready) by done.
    simpl. f_equal. apply first_best_keeps. by apply Forall_fmap.
Qed.

End FurtherClassification.

Section EdgeCases.
Context `{Externals}.

(** X15: after a training that kept no class, the batched path of either
    classifier raises [ValueError] (the arg-max and arg-min over an empty
    axis) for every image, while the default path returns, for no pixel or at
    least 100 pixels, the class map that holds [-1] everywhere. *)
Theorem classify_image_without_classes :
  forall (image : Image),
    (forall self : GaussianClassifier.t,
       GaussianClassifier.classes self = Some [] ->
       GaussianClassifier.classify_image
         (GaussianClassifier.set_cache_class_scores true self) image
       = Raise ValueError) /\
    (forall self : MahalanobisDistanceClassifier.t,
       GaussianClassifier.classes (MahalanobisDistanceClassifier.base self) = Some [] ->
       (MahalanobisDistanceClassifier.classify_image
          (MahalanobisDistanceClassifier.set_cache_class_scores true self) image).2
       = Raise ValueError) /\
    (forall self : GaussianClassifier.t,
       GaussianClassifier.classes self = Some [] ->
       100 <= ImageIterator.get_num_elements image
       \/ ImageIterator.get_num_elements image = 0 ->
       GaussianClassifier.classify_image
         (GaussianClassifier.set_cache_class_scores false self) image
       = Ok {| cm_dtype := float64; cm_shape := (im_rows image, im_cols image);
               cm_data := class_map_data (fun _ => -1) image |}).
Proof.
  intros image. split; [|split].
  - intros self Hcls. unfold GaussianClassifier.classify_image. simpl. by rewrite Hcls.
  - intros self Hcls. unfold MahalanobisDistanceClassifier.classify_image. simpl.
    by rewrite Hcls.
  - intros self Hcls HN. unfold GaussianClassifier.classify_image. simpl.
    apply streaming_class_map; [|done].
    intros x. unfold GaussianClassifier.classify_spectrum. simpl. by rewrite Hcls.
Qed.

(** X16: a classifier built without training data has no [classes]
    attribute: [classify_spectrum] and the batched [classify_image] raise
    [AttributeError], and so does the default path on an image with a pixel. *)
Theorem untrained_attribute_error :
  forall (min_samples : option Z) (x : vector) (image : Image),
    let g := (GaussianClassifier.init None min_samples).1 in
    let m := (MahalanobisDistanceClassifier.init None min_samples).1.1 in
    GaussianClassifier.classify_spectrum g x = Raise AttributeError /\
    MahalanobisDistanceClassifier.classify_spectrum m x = Raise AttributeError /\
    GaussianClassifier.classify_image g image = Raise AttributeError /\
    (MahalanobisDistanceClassifier.classify_image m image).2 = Raise AttributeError /\
    (0 < ImageIterator.get_num_elements image ->
     GaussianClassifier.classify_image
       (GaussianClassifier.set_cache_class_scores false g) image = Raise AttributeError /\
     (MahalanobisDistanceClassifier.classify_image
        (MahalanobisDistanceClassifier.set_cache_class_scores false m) image).2
     = Raise AttributeError).
Proof.
  intros min_samples x image g m. subst g m.
  split; [done|]. split; [done|]. split; [done|]. split; [done|].
  intros Hpos. split.
  - unfold GaussianClassifier.classify_image. simpl.
    by apply default_path_first_pixel_raises.
  - unfold MahalanobisDistanceClassifier.classify_image. simpl.
    by apply default_path_first_pixel_raises.
Qed.

Lemma mahalanobis_scan_same (bg bg' : GaussianStats) (x : vector)
    (cls cls' : list TrainingClass) :
  inv_cov bg = inv_cov bg' ->
  Forall ready cls ->
  Forall2 same_label_and_mean cls cls' ->
  forall (first : bool) (d2_min : float) (max_class : Z),
    MahalanobisDistanceClassifier.scan (Some bg) x cls first d2_min max_class
    = MahalanobisDistanceClassifier.scan (Some bg') x cls' first d2_min max_class.
Proof.
  intros Hinv Hready Hsame. induction Hsame as [|cl cl' cls cls' [Hi Hm] _ IH];
    intros first d2_min max_class; [done|].
  apply Forall_cons in Hready as [(st & m & Hst & Hmean) Hrest].
  unfold class_mean in Hm. rewrite Hst, Hmean in Hm.
  destruct (stats cl') as [st'|] eqn:Est'; [|done].
  simpl. rewrite Hst, Est'. simpl. rewrite Hmean, <- Hm. simpl.
  destruct (vsub x m) as [delta|e]; simpl; [|done].
  rewrite <- Hinv, Hi.
  destruct (quadratic_form (inv_cov bg) delta) as [d2|e]; simpl; [|done].
  destruct (first || _); by apply IH.
Qed.

(** X17: [MahalanobisDistanceClassifier.classify_spectrum] reads the classes
    through their labels and means only: two classifiers whose classes agree
    on both, pairwise in order, and whose backgrounds have the same inverse
    covariance, classify every spectrum alike, whatever the priors, sizes and
    covariances of the classes. *)
Theorem mahalanobis_reads_labels_and_means :
  forall (self self' : MahalanobisDistanceClassifier.t) (cls cls' : list TrainingClass)
         (bg bg' : GaussianStats) (x : vector),
    GaussianClassifier.classes (MahalanobisDistanceClassifier.base self) = Some cls ->
    GaussianClassifier.classes (MahalanobisDistanceClassifier.base self') = Some cls' ->
    MahalanobisDistanceClassifier.background self = Some bg ->
    MahalanobisDistanceClassifier.background self' = Some bg' ->
    inv_cov bg = inv_cov bg' ->
    Forall ready cls ->
    Forall2 same_label_and_mean cls cls' ->
    MahalanobisDistanceClassifier.classify_spectrum self x
    = MahalanobisDistanceClassifier.classify_spectrum self' x.
Proof.
  intros self self' cls cls' bg bg' x Hcls Hcls' Hbg Hbg' Hinv Hready Hsame.
  unfold MahalanobisDistanceClassifier.classify_spectrum.
  rewrite Hcls, Hcls', Hbg, Hbg'. cbn [result_bind getattr].
  by apply mahalanobis_scan_same.
Qed.

End EdgeCases.

(** X18: [classify_image] on an instance of the base class raises
    [NotImplementedError] as soon as the image has a pixel, and returns the
    array of zeros of the shape of the image when it has none. *)
Theorem base_classify_image_outcome :
  forall (image : Image),
    (0 < ImageIterator.get_num_elements image ->
     Classifier.classify_image (fun x => Classifier.classify_spectrum x tt) image
     = Raise NotImplementedError) /\
    (ImageIterator.get_num_elements image = 0 ->
     Classifier.classify_image (fun x => Classifier.classify_spectrum x tt) image
     = Ok {| cm_dtype := float64; cm_shape := (im_rows image, im_cols image);
             cm_data := repeat (repeat 0 (im_cols image)) (im_rows image) |}).
Proof.
  intros image. split.
  - intros Hpos. by apply default_path_first_pixel_raises.
  - intros HN. unfold Classifier.classify_image. by rewrite (elements_nil image HN).
Qed.

(** ** The deprecated methods *)

Lemma run_classifySpectrum_recursion (c : class_name)
    (other : class_name -> attribute -> call_result Z) (k : class_name) (depth : nat) :
  c <> MahalanobisDistanceClassifier_class ->
  k = Classifier_class \/ k = GaussianClassifier_class ->
  run c other depth k a_classifySpectrum = MaximumRecursionDepth.
Proof.
  intros Hc. revert k. induction depth as [|depth IH]; intros k Hk; [done|].
  assert (Hres : exists k', resolve c a_classifySpectrum = Some k' /\
                            (k' = Classifier_class \/ k' = GaussianClassifier_class)).
  { destruct c.
    - exists Classifier_class. split; [reflexivity|by left].
    - exists Classifier_class. split; [reflexivity|by left].
    - exists GaussianClassifier_class. split; [reflexivity|by right].
    - done. }
  destruct Hres as (k' & Hr & Hk').
  destruct Hk as [-> | ->]; simpl; rewrite Hr; by apply IH.
Qed.

(** X19: the deprecated [classifySpectrum] never returns a class: on an
    instance of [Classifier], [SupervisedClassifier] or [GaussianClassifier]
    it calls itself until the recursion limit, whatever the limit, and on an
    instance of [MahalanobisDistanceClassifier] it raises [AttributeError],
    since no class defines [classify_pectrum]. *)
Theorem deprecated_classifySpectrum_never_returns :
  forall (c : class_name) (other : class_name -> attribute -> call_result Z)
         (depth : nat),
    (c <> MahalanobisDistanceClassifier_class ->
     invoke c other a_classifySpectrum depth = MaximumRecursionDepth) /\
    (c = MahalanobisDistanceClassifier_class ->
     invoke c other a_classifySpectrum (S depth) = Done (Raise AttributeError)) /\
    (forall v, invoke c other a_classifySpectrum depth <> Done (Ok v)).
Proof.
  intros c other depth.
  assert (H1 : c <> MahalanobisDistanceClassifier_class ->
               invoke c other a_classifySpectrum depth = MaximumRecursionDepth).
  { intros Hc. unfold invoke.
    destruct c; [| | |done]; simpl.
    - apply run_classifySpectrum_recursion; [done|by left].
    - apply run_classifySpectrum_recursion; [done|by left].
    - apply run_classifySpectrum_recursion; [done|by right]. }
  split; [exact H1|]. split.
  - intros ->. reflexivity.
  - intros v. destruct c; try (rewrite H1 by done; discriminate).
    unfold invoke. simpl. destruct depth; simpl; discriminate.
Qed.

(** The deprecated [classifyImage] does work: with two frames left
    under the recursion limit it ends as the [classify_image] of the class of
    the instance, the override for the two Gaussian classes and the default
    loop otherwise. *)
Theorem deprecated_classifyImage_dispatch :
  forall (c : class_name) (other : class_name -> attribute -> call_result Z)
         (depth : nat),
    invoke c other a_classifyImage (S (S depth))
    = other (match c with
             | Classifier_class | SupervisedClassifier_class => Classifier_class
             | GaussianClassifier_class => GaussianClassifier_class
             | MahalanobisDistanceClassifier_class => MahalanobisDistanceClassifier_class
             end) a_classify_image.
Proof. intros c other depth. by destruct c. Qed.

(** ** The default path on small images *)

Section SmallImages.
Context `{Externals}.

(** X3: with [cache_class_scores] false, [GaussianClassifier.classify_image]
    raises [ZeroDivisionError] on every image of 1 to 99 pixels whose first
    pixel has as many bands as the statistics of the classes, for positive
    priors. *)
Theorem gaussian_streaming_small_image :
  forall (self : GaussianClassifier.t) (cls : list TrainingClass) (B : nat)
         (image : Image),
    GaussianClassifier.cache_class_scores self = false ->
    GaussianClassifier.classes self = Some cls ->
    Forall ready cls ->
    Forall (stats_shape B) cls ->
    Forall (fun cl => log_defined (class_prob cl)) cls ->
    length (pixel image 0 0) = B ->
    0 < ImageIterator.get_num_elements image < 100 ->
    GaussianClassifier.classify_image self image = Raise ZeroDivisionError.
Proof.
  intros self cls B image Hcache Hcls Hready Hshape Hlog Hpx HN.
  unfold GaussianClassifier.classify_image. rewrite Hcache. simpl negb. cbv iota.
  eapply default_path_zero_division; [done|].
  unfold GaussianClassifier.classify_spectrum. rewrite Hcls. cbn [result_bind getattr].
  by apply (gaussian_scan_first_best B).
Qed.

(** X4: with [cache_class_scores] false,
    [MahalanobisDistanceClassifier.classify_image] raises [ZeroDivisionError]
    on every image of 1 to 99 pixels whose first pixel has as many bands as
    the means of the classes and the background, and leaves the classifier
    as it was. *)
Theorem mahalanobis_streaming_small_image :
  forall (self : MahalanobisDistanceClassifier.t) (cls : list TrainingClass)
         (bg : GaussianStats) (B : nat) (image : Image),
    GaussianClassifier.cache_class_scores (MahalanobisDistanceClassifier.base self) = false ->
    GaussianClassifier.classes (MahalanobisDistanceClassifier.base self) = Some cls ->
    MahalanobisDistanceClassifier.background self = Some bg ->
    Forall ready cls ->
    Forall (mean_length B) cls ->
    has_shape B B (inv_cov bg) ->
    length (pixel image 0 0) = B ->
    0 < ImageIterator.get_num_elements image < 100 ->
    MahalanobisDistanceClassifier.classify_image self image
    = (self, Raise ZeroDivisionError).
Proof.
  intros self cls bg B image Hcache Hcls Hbg Hready Hshape Hinv Hpx HN.
  unfold MahalanobisDistanceClassifier.classify_image. rewrite Hcache. simpl negb.
  cbv iota. f_equal.
  eapply default_path_zero_division; [done|].
  unfold MahalanobisDistanceClassifier.classify_spectrum. rewrite Hcls, Hbg.
  cbn [result_bind getattr].
  by apply (mahalanobis_scan_first_best B).
Qed.

End SmallImages.

(** ** Spectra and priors outside the domain *)

Lemma vsub_wrong_length (x m : vector) :
  length x <> length m -> length x <> 1%nat -> length m <> 1%nat ->
  vsub x m = Raise ValueError.
Proof.
  intros Hne Hx Hm. unfold vsub. rewrite decide_False by done.
  destruct x as [|a [|a' x]]; [|done|]; by destruct m as [|b [|b' m]].
Qed.

Lemma SFeqb_refl (s : spec_float) : s <> S754_nan -> SFeqb s s = true.
Proof.
  intros Hs. unfold SFeqb, SFcompare. destruct s as [[]|[]| |[] m e]; try done.
  - rewrite Z.compare_refl. change (Pos.compare_cont Eq m m) with (Pos.compare m m).
    by rewrite Pos.compare_refl.
  - rewrite Z.compare_refl. change (Pos.compare_cont Eq m m) with (Pos.compare m m).
    by rewrite Pos.compare_refl.
Qed.

Lemma is_nan_true (a : float) : PrimFloat.is_nan a = true -> Prim2SF a = S754_nan.
Proof.
  unfold PrimFloat.is_nan. rewrite FloatAxioms.eqb_spec. intros Hn.
  destruct (Prim2SF a) as [[]|[]| |[] m e] eqn:Ea; try done.
  - rewrite (SFeqb_refl (S754_finite true m e)) in Hn by done. done.
  - rewrite (SFeqb_refl (S754_finite false m e)) in Hn by done. done.
Qed.

(** Nothing is greater or smaller than NaN. *)
Lemma ltb_nan_l (a b : float) : PrimFloat.is_nan a = true -> (a <? b)%float = false.
Proof. intros Ha. rewrite ltb_spec, (is_nan_true a Ha). reflexivity. Qed.

Lemma ltb_nan_r (a b : float) : PrimFloat.is_nan b = true -> (a <? b)%float = false.
Proof.
  intros Hb. rewrite ltb_spec, (is_nan_true b Hb). by destruct (Prim2SF a) as [[]|[]| |[] ? ?].
Qed.

Section OutsideTheDomain.
Context `{Externals}.

(** X20: a spectrum whose number of entries differs from that of the mean of
    the first class, neither of them having one entry, makes
    [classify_spectrum] of either classifier raise [ValueError]: numpy
    cannot broadcast the two in [x - cl.stats.mean]. *)
Theorem spectrum_of_wrong_length :
  forall (cl : TrainingClass) (rest : list TrainingClass) (st : GaussianStats)
         (m x : vector),
    stats cl = Some st -> mean st = Some m ->
    length x <> length m -> length x <> 1%nat -> length m <> 1%nat ->
    (forall self : GaussianClassifier.t,
       GaussianClassifier.classes self = Some (cl :: rest) ->
       GaussianClassifier.classify_spectrum self x = Raise ValueError) /\
    (forall self : MahalanobisDistanceClassifier.t,
       GaussianClassifier.classes (MahalanobisDistanceClassifier.base self)
       = Some (cl :: rest) ->
       MahalanobisDistanceClassifier.classify_spectrum self x = Raise ValueError).
Proof.
  intros cl rest st m x Hst Hm Hne Hx Hlen.
  pose proof (vsub_wrong_length x m Hne Hx Hlen) as Hsub. split.
  - intros self Hcls. unfold GaussianClassifier.classify_spectrum. rewrite Hcls.
    simpl. rewrite Hst. simpl. rewrite Hm. simpl.
    unfold GaussianClassifier.prob. by rewrite Hsub.
  - intros self Hcls. unfold MahalanobisDistanceClassifier.classify_spectrum.
    rewrite Hcls. simpl. rewrite Hst. simpl. rewrite Hm. simpl. by rewrite Hsub.
Qed.

(** X21: a first class whose prior is zero or negative makes
    [GaussianClassifier.classify_spectrum] raise [ValueError] at [math.log]
    for every spectrum of as many entries as its mean, and makes the batched
    [classify_image] raise [ValueError] for every image. *)
Theorem non_positive_prior :
  forall (cl : TrainingClass) (rest : list TrainingClass),
    (class_prob cl <=? 0)%float = true ->
    (forall (self : GaussianClassifier.t) (st : GaussianStats) (m x : vector),
       GaussianClassifier.classes self = Some (cl :: rest) ->
       stats cl = Some st -> mean st = Some m -> length x = length m ->
       GaussianClassifier.classify_spectrum self x = Raise ValueError) /\
    (forall (self : GaussianClassifier.t) (image : Image),
       GaussianClassifier.cache_class_scores self = true ->
       GaussianClassifier.classes self = Some (cl :: rest) ->
       GaussianClassifier.classify_image self image = Raise ValueError).
Proof.
  intros cl rest Hp. split.
  - intros self st m x Hcls Hst Hm Hx.
    unfold GaussianClassifier.classify_spectrum. rewrite Hcls.
    simpl. rewrite Hst. simpl. rewrite Hm. simpl.
    unfold GaussianClassifier.prob. rewrite vsub_same_length by done. simpl.
    unfold math_log. by rewrite Hp.
  - intros self image Hcache Hcls.
    unfold GaussianClassifier.classify_image. rewrite Hcache, Hcls. simpl.
    unfold GaussianClassifier.score_column at 1. unfold math_log. by rewrite Hp.
Qed.

Lemma for_each_ok {A B : Type} (f : A -> result B) (g : A -> B) (l : list A) :
  (forall a, a ∈ l -> f a = Ok (g a)) -> for_each f l = Ok (map g l).
Proof.
  induction l as [|a l IH]; intros Hf; [done|].
  simpl. rewrite Hf by apply list_elem_of_here. simpl.
  rewrite IH; [done|]. intros b Hb. apply Hf. by apply list_elem_of_further.
Qed.

Lemma reshape_pixels_bands (B : nat) (image : Image) :
  image_bands B image -> Forall (fun px => length px = B) (reshape_pixels image).
Proof.
  intros Hb. unfold reshape_pixels. apply Forall_forall. intros px Hin.
  apply list_elem_of_In, in_flat_map in Hin as (r & _ & Hin).
  apply in_map_iff in Hin as (c & <- & _). apply Hb.
Qed.

(** X23: the batched [GaussianClassifier.classify_image] raises
    [ValueError] on an image whose working arrays are no C-arrays, as soon as
    there is a class: [delta.dot(c.stats.inv_cov, out=Y)] refuses [Y], after
    the logarithm and the subtraction for the first class went through. *)
Theorem batched_needs_c_array :
  forall (self : GaussianClassifier.t) (cl : TrainingClass) (rest : list TrainingClass)
         (B : nat) (image : Image),
    GaussianClassifier.cache_class_scores self = true ->
    GaussianClassifier.classes self = Some (cl :: rest) ->
    ready cl -> mean_length B cl -> log_defined (class_prob cl) ->
    image_bands B image ->
    c_contiguous image = false ->
    GaussianClassifier.classify_image self image = Raise ValueError.
Proof.
  intros self cl rest B image Hcache Hcls (st & m & Hst & Hm) Hlen Hlog Hbands Hc.
  unfold GaussianClassifier.classify_image. rewrite Hcache, Hcls, Hc. simpl.
  unfold GaussianClassifier.score_column at 1. unfold math_log. rewrite Hlog. simpl.
  rewrite Hst. simpl. rewrite Hm. simpl.
  rewrite (for_each_ok _ (fun px => zip_with PrimFloat.sub px m)); [done|].
  intros px Hin. unfold subtract_out. rewrite decide_True; [done|].
  pose proof (reshape_pixels_bands B image Hbands) as Hall.
  rewrite Forall_forall in Hall. rewrite (Hall px Hin). by apply (Hlen st m).
Qed.

(** X22: when the score of the first class is NaN, no later score is
    greater, and [GaussianClassifier.classify_spectrum] returns the first
    class; likewise [MahalanobisDistanceClassifier.classify_spectrum] when
    the distance to the first class is NaN. *)
Theorem nan_of_first_class :
  forall (cl0 : TrainingClass) (rest : list TrainingClass) (B : nat) (x : vector),
    Forall ready (cl0 :: rest) -> length x = B ->
    (forall self : GaussianClassifier.t,
       GaussianClassifier.classes self = Some (cl0 :: rest) ->
       Forall (stats_shape B) (cl0 :: rest) ->
       Forall (fun cl => log_defined (class_prob cl)) (cl0 :: rest) ->
       PrimFloat.is_nan (score cl0 x) = true ->
       GaussianClassifier.classify_spectrum self x = Ok (index cl0)) /\
    (forall (self : MahalanobisDistanceClassifier.t) (bg : GaussianStats),
       GaussianClassifier.classes (MahalanobisDistanceClassifier.base self)
       = Some (cl0 :: rest) ->
       MahalanobisDistanceClassifier.background self = Some bg ->
       Forall (mean_length B) (cl0 :: rest) -> has_shape B B (inv_cov bg) ->
       PrimFloat.is_nan (distance2 bg cl0 x) = true ->
       MahalanobisDistanceClassifier.classify_spectrum self x = Ok (index cl0)).
Proof.
  intros cl0 rest B x Hready Hx. split.
  - intros self Hcls Hshape Hlog Hnan.
    unfold GaussianClassifier.classify_spectrum. rewrite Hcls. cbn [result_bind getattr].
    rewrite (gaussian_scan_first_best B x _ Hx Hready) by done.
    simpl. f_equal. apply first_best_keeps.
    apply Forall_forall. intros si _. by apply ltb_nan_l.
  - intros self bg Hcls Hbg Hshape Hinv Hnan.
    unfold MahalanobisDistanceClassifier.classify_spectrum. rewrite Hcls, Hbg.
    cbn [result_bind getattr].
    rewrite (mahalanobis_scan_first_best B bg x _ Hx Hinv Hready) by done.
    simpl. f_equal. apply first_best_keeps.
    apply Forall_forall. intros si _. by apply ltb_nan_r.
Qed.

End OutsideTheDomain.

(** ** Instances of the further properties on the sample data *)

Lemma sample_kept_ready : Forall ready Sample.kept.
Proof. repeat constructor; eexists _, _; split; reflexivity. Defined.

Lemma sample_kept_shape : Forall (stats_shape 2) Sample.kept.
Proof.
  constructor; [|constructor; [|constructor]];
    intros st Hst; injection Hst as <-;
    (split; [split; [reflexivity|]|intros m Hm; injection Hm as <-; reflexivity]);
    (constructor; [reflexivity|constructor; [reflexivity|constructor]]).
Defined.

Lemma sample_kept_mean_length : Forall (mean_length 2) Sample.kept.
Proof.
  constructor; [|constructor; [|constructor]];
    intros st m Hst Hm; injection Hst as <-; injection Hm as <-; reflexivity.
Defined.

Lemma sample_kept_priors : Forall (fun cl => log_defined (class_prob cl)) Sample.kept.
Proof. constructor; [|constructor; [|constructor]]; reflexivity. Defined.

Lemma sample_pooled_shape : has_shape 2 2 (inv_cov Sample.pooled).
Proof.
  split; [reflexivity|].
  constructor; [reflexivity|constructor; [reflexivity|constructor]].
Defined.

Lemma gaussian_streaming_small_image_witness :
  GaussianClassifier.classify_image
    (GaussianClassifier.set_cache_class_scores false Sample.gaussian) Sample.one_pixel
  = Raise ZeroDivisionError.
Proof.
  apply (gaussian_streaming_small_image _ Sample.kept 2 Sample.one_pixel).
  - reflexivity.
  - reflexivity.
  - exact sample_kept_ready.
  - exact sample_kept_shape.
  - exact sample_kept_priors.
  - reflexivity.
  - vm_compute. split; reflexivity.
Defined.

Lemma mahalanobis_streaming_small_image_witness :
  MahalanobisDistanceClassifier.classify_image
    (MahalanobisDistanceClassifier.set_cache_class_scores false Sample.mahalanobis)
    Sample.one_pixel
  = (MahalanobisDistanceClassifier.set_cache_class_scores false Sample.mahalanobis,
     Raise ZeroDivisionError).
Proof.
  apply (mahalanobis_streaming_small_image _ Sample.kept Sample.pooled 2 Sample.one_pixel).
  - reflexivity.
  - reflexivity.
  - vm_compute. reflexivity.
  - exact sample_kept_ready.
  - exact sample_kept_mean_length.
  - exact sample_pooled_shape.
  - reflexivity.
  - vm_compute. split; reflexivity.
Defined.

Lemma mahalanobis_batched_background_witness :
  MahalanobisDistanceClassifier.background
    (MahalanobisDistanceClassifier.classify_image Sample.mahalanobis Sample.one_pixel).1
  = Some {| mean := Some [5%float; 5%float];
            cov := cov Sample.pooled; inv_cov := inv_cov Sample.pooled;
            log_det_cov := log_det_cov Sample.pooled; nsamples := nsamples Sample.pooled |}.
Proof.
  apply (mahalanobis_batched_background Sample.mahalanobis Sample.kept Sample.pooled
           Sample.one_pixel
           (GaussianClassifier.ensure_stats (Sample.training_class 5 30))
           (Sample.stats_at 5 30)).
  - reflexivity.
  - reflexivity.
  - vm_compute. reflexivity.
  - exact sample_kept_ready.
  - reflexivity.
  - reflexivity.
Defined.

Lemma single_class_always_chosen_witness :
  GaussianClassifier.classify_spectrum Sample.gaussian1 [4%float; 4%float] = Ok 2.
Proof.
  apply (proj1 (single_class_always_chosen
                  (GaussianClassifier.ensure_stats (Sample.training_class 2 20))
                  2 [4%float; 4%float]
                  ltac:(eexists _, _; split; reflexivity) eq_refl)).
  - reflexivity.
  - intros st Hst. injection Hst as <-.
    split; [|intros m Hm; injection Hm as <-; reflexivity].
    split; [reflexivity|].
    constructor; [reflexivity|constructor; [reflexivity|constructor]].
  - reflexivity.
Defined.

Lemma first_class_wins_ties_witness :
  GaussianClassifier.classify_spectrum Sample.gaussian [2.5%float; 2.5%float] = Ok 0.
Proof.
  apply (proj1 (first_class_wins_ties
                  (GaussianClassifier.ensure_stats (Sample.training_class 0 20))
                  [GaussianClassifier.ensure_stats (Sample.training_class 5 30)]
                  2 [2.5%float; 2.5%float] sample_kept_ready eq_refl)).
  - reflexivity.
  - exact sample_kept_shape.
  - exact sample_kept_priors.
  - constructor; [|constructor]. vm_compute. reflexivity.
Defined.

Lemma classify_image_without_classes_witness :
  GaussianClassifier.classify_image
    (GaussianClassifier.set_cache_class_scores true Sample.gaussian0) Sample.ten_by_ten
  = Raise ValueError /\
  GaussianClassifier.classify_image
    (GaussianClassifier.set_cache_class_scores false Sample.gaussian0) Sample.ten_by_ten
  = Ok {| cm_dtype := float64; cm_shape := (10%nat, 10%nat);
          cm_data := class_map_data (fun _ => -1) Sample.ten_by_ten |}.
Proof.
  split.
  - apply (proj1 (classify_image_without_classes Sample.ten_by_ten) Sample.gaussian0).
    reflexivity.
  - apply (proj2 (proj2 (classify_image_without_classes Sample.ten_by_ten))
             Sample.gaussian0).
    + reflexivity.
    + left. vm_compute. discriminate.
Defined.

Lemma untrained_attribute_error_witness :
  GaussianClassifier.classify_image
    (GaussianClassifier.set_cache_class_scores false
       (GaussianClassifier.init None (Some 10)).1) Sample.one_pixel
  = Raise AttributeError.
Proof.
  apply (proj2 (proj2 (proj2 (proj2
           (untrained_attribute_error (Some 10) [] Sample.one_pixel))))).
  vm_compute. reflexivity.
Defined.

Lemma mahalanobis_reads_labels_and_means_witness :
  MahalanobisDistanceClassifier.classify_spectrum Sample.mahalanobis [4%float; 4%float]
  = MahalanobisDistanceClassifier.classify_spectrum Sample.mahalanobis_otherwise
      [4%float; 4%float].
Proof.
  apply (mahalanobis_reads_labels_and_means Sample.mahalanobis Sample.mahalanobis_otherwise
           Sample.kept Sample.kept_otherwise Sample.pooled Sample.pooled).
  - reflexivity.
  - reflexivity.
  - vm_compute. reflexivity.
  - reflexivity.
  - reflexivity.
  - exact sample_kept_ready.
  - constructor; [split; reflexivity|]. constructor; [split; reflexivity|]. constructor.
Defined.

Lemma base_classify_image_outcome_witness :
  Classifier.classify_image (fun x => Classifier.classify_spectrum x tt) Sample.one_pixel
  = Raise NotImplementedError /\
  Classifier.classify_image (fun x => Classifier.classify_spectrum x tt) Sample.no_pixel
  = Ok {| cm_dtype := float64; cm_shape := (0%nat, 0%nat); cm_data := [] |}.
Proof.
  split.
  - apply (proj1 (base_classify_image_outcome Sample.one_pixel)). reflexivity.
  - apply (proj2 (base_classify_image_outcome Sample.no_pixel)). reflexivity.
Defined.

Lemma deprecated_classifySpectrum_never_returns_witness :
  invoke GaussianClassifier_class (fun _ _ => Done (Ok 0)) a_classifySpectrum 1000
  = MaximumRecursionDepth /\
  invoke MahalanobisDistanceClassifier_class (fun _ _ => Done (Ok 0)) a_classifySpectrum 1000
  = Done (Raise AttributeError).
Proof.
  split.
  - apply (proj1 (deprecated_classifySpectrum_never_returns
                    GaussianClassifier_class (fun _ _ => Done (Ok 0)) 1000)).
    discriminate.
  - apply (proj1 (proj2 (deprecated_classifySpectrum_never_returns
                           MahalanobisDistanceClassifier_class
                           (fun _ _ => Done (Ok 0)) 999))).
    reflexivity.
Defined.

Lemma spectrum_of_wrong_length_witness :
  GaussianClassifier.classify_spectrum Sample.gaussian [4%float; 4%float; 4%float]
  = Raise ValueError /\
  MahalanobisDistanceClassifier.classify_spectrum Sample.mahalanobis
    [4%float; 4%float; 4%float]
  = Raise ValueError.
Proof.
  destruct (spectrum_of_wrong_length
              (GaussianClassifier.ensure_stats (Sample.training_class 0 20))
              [GaussianClassifier.ensure_stats (Sample.training_class 5 30)]
              (Sample.stats_at 0 20) [0%float; 0%float]
              [4%float; 4%float; 4%float]) as [Hg Hm].
  - reflexivity.
  - reflexivity.
  - simpl. lia.
  - simpl. lia.
  - simpl. lia.
  - split.
    + apply Hg. reflexivity.
    + apply Hm. reflexivity.
Defined.

Lemma non_positive_prior_witness :
  GaussianClassifier.classify_image
    {| GaussianClassifier.cache_class_scores := true;
       GaussianClassifier.min_samples := Some 2;
       GaussianClassifier.classes :=
         Some [{| index := 1; size := 5; class_prob := 0%float;
                  stats := Some (Sample.stats_at 1 5) |}] |}
    Sample.ten_by_ten
  = Raise ValueError.
Proof.
  apply (proj2 (non_positive_prior
                  {| index := 1; size := 5; class_prob := 0%float;
                     stats := Some (Sample.stats_at 1 5) |} []
                  ltac:(reflexivity))).
  - reflexivity.
  - reflexivity.
Defined.

Lemma nan_of_first_class_witness :
  GaussianClassifier.classify_spectrum Sample.gaussian [nan; 5%float] = Ok 0.
Proof.
  apply (proj1 (nan_of_first_class
                  (GaussianClassifier.ensure_stats (Sample.training_class 0 20))
                  [GaussianClassifier.ensure_stats (Sample.training_class 5 30)]
                  2 [nan; 5%float] sample_kept_ready eq_refl)).
  - reflexivity.
  - exact sample_kept_shape.
  - exact sample_kept_priors.
  - vm_compute. reflexivity.
Defined.

Lemma batched_needs_c_array_witness :
  GaussianClassifier.classify_image Sample.gaussian Sample.band_sequential
  = Raise ValueError.
Proof.
  apply (batched_needs_c_array Sample.gaussian
           (GaussianClassifier.ensure_stats (Sample.training_class 0 20))
           [GaussianClassifier.ensure_stats (Sample.training_class 5 30)]
           2 Sample.band_sequential).
  - reflexivity.
  - reflexivity.
  - eexists _, _. split; reflexivity.
  - intros st m Hst Hm. injection Hst as <-. injection Hm as <-. reflexivity.
  - reflexivity.
  - intros r c. reflexivity.
  - reflexivity.
Defined.
